(** * Netflix churn prediction: the scoring paths of [src/api/app.py] and the
    feature derivation of [src/models/train.py].

    Conventions of the embedding.
    - A Python [float] (and a numpy [float64]) is a rational of [Q]; the
      comparisons and the arithmetic are the ones the source writes.  A
      numpy value that is not finite (the result of a division by zero) is
      [NonFin].
    - A request payload ([request.json]) is a finite map from field names to
      JSON scalars.
    - A [pandas.DataFrame] is the ordered list of its named columns.
    - An exception is a value of [exn]; code that can raise returns
      [result A]. *)

From Stdlib Require Import QArith Qround Lqa ZArith String Ascii List Bool
  Sorted.
From Stdlib Require OrderedTypeEx.
From stdpp Require Import gmap strings list fin_maps.

Import ListNotations.
Local Open Scope string_scope.
Local Open Scope Z_scope.

(** ** Exceptions and fallible computations *)

Inductive exn :=
| KeyError (key : string)
| ValueError (msg : string)
| TypeError (msg : string)
| ZeroDivisionError (msg : string)
| IndexError (msg : string)
| OtherError (msg : string).

Definition result (A : Type) : Type := exn + A.

Definition ret {A} (a : A) : result A := inr a.
Definition raise {A} (e : exn) : result A := inl e.
Definition bind {A B} (m : result A) (k : A -> result B) : result B :=
  match m with
  | inl e => inl e
  | inr a => k a
  end.

Declare Scope py_scope.
Delimit Scope py_scope with py.
Notation "'try!' x ':=' m 'in' k" := (bind m (fun x => k))
  (at level 10, x name, m at level 100, k at level 200) : py_scope.

(** [repr] of a Python string without quotes or backslashes in it. *)
Definition repr (s : string) : string := "'" ++ s ++ "'".

(** [str(e)]: the message of the exception; a [KeyError] prints the [repr]
    of its key. *)
Definition str_exn (e : exn) : string :=
  match e with
  | KeyError k => repr k
  | ValueError m | TypeError m | ZeroDivisionError m
  | IndexError m | OtherError m => m
  end.

Local Open Scope py_scope.

Fixpoint traverse {A B} (f : A -> result B) (l : list A) : result (list B) :=
  match l with
  | [] => ret []
  | a :: l' => try! b := f a in try! bs := traverse f l' in ret (b :: bs)
  end.

(** ** Python values *)

(** [a < b] on finite floats. *)
Definition Qltb (a b : Q) : bool := negb (Qle_bool b a).

(** A JSON scalar of the request payload.  [JNum] is a JSON number, an
    [int] or a [float] of Python; Python compares and adds the two by
    value. *)
Inductive json :=
| JNull
| JBool (b : bool)
| JNum (q : Q)
| JStr (s : string).

(** [request.json] when the body is a JSON object. *)
Abbreviation payload := (gmap string json).

(** [data.get(key, default)]. *)
Definition get_default (data : payload) (key : string) (dflt : json) : json :=
  match data !! key with
  | Some v => v
  | None => dflt
  end.

(** [data.get(key)]: [None] when the key is absent. *)
Definition get (data : payload) (key : string) : json :=
  get_default data key JNull.

(** Python's [==] on these values: [True == 1] and [1 == 1.0] hold, a
    string equals only a string, [None] only [None]. *)
Definition py_eq (a b : json) : bool :=
  match a, b with
  | JNull, JNull => true
  | JBool x, JBool y => Bool.eqb x y
  | JBool x, JNum y | JNum y, JBool x => Qeq_bool (inject_Z (Z.b2z x)) y
  | JNum x, JNum y => Qeq_bool x y
  | JStr s, JStr t => String.eqb s t
  | _, _ => false
  end.

(** [int(x)] of a float truncates towards zero. *)
Definition Qtruncate (q : Q) : Z :=
  if Qle_bool 0 q then Qfloor q else Qceiling q.

(** [round(x, ndigits)] of numpy: to the nearest multiple of
    [10^-ndigits], a tie to the even one. *)
Definition Qround_half_even (q : Q) : Z :=
  let f := Qfloor q in
  let d := (q - inject_Z f)%Q in
  match (d ?= 1 # 2)%Q with
  | Lt => f
  | Gt => f + 1
  | Eq => if Z.even f then f else f + 1
  end.

Definition py_round (q : Q) (ndigits : nat) : Q :=
  let scale := inject_Z (10 ^ Z.of_nat ndigits) in
  (inject_Z (Qround_half_even (q * scale)) / scale)%Q.

(** ** sklearn's [LabelEncoder]

    [fit] stores [classes_ = np.unique(y)]: the distinct labels in
    ascending order (strings by code point).  [transform] maps a label to
    its index in [classes_] and raises [ValueError] on a label that is not
    there. *)

Section Unique.
Context {A : Type} (cmp : A -> A -> comparison).

Fixpoint insert_unique (x : A) (l : list A) : list A :=
  match l with
  | [] => [x]
  | h :: t =>
      match cmp x h with
      | Lt => x :: l
      | Eq => l
      | Gt => h :: insert_unique x t
      end
  end.

Definition np_unique (l : list A) : list A :=
  fold_right insert_unique [] l.

Fixpoint index_of (x : A) (l : list A) : option nat :=
  match l with
  | [] => None
  | h :: t =>
      match cmp x h with
      | Eq => Some O
      | _ => option_map S (index_of x t)
      end
  end.

End Unique.

Record LabelEncoder := { classes_ : list string }.

Definition fit (y : list string) : LabelEncoder :=
  {| classes_ := np_unique String.compare y |}.

Definition unseen_labels : exn :=
  ValueError "y contains previously unseen labels".

(** A payload value that is not a string (a number, a boolean, [null]) is
    never one of the string classes. *)
Definition transform_label (le : LabelEncoder) (v : json) : result Z :=
  match v with
  | JStr s =>
      match index_of String.compare s (classes_ le) with
      | Some i => ret (Z.of_nat i)
      | None => raise unseen_labels
      end
  | _ => raise unseen_labels
  end.

Definition transform (le : LabelEncoder) (y : list json) : result (list Z) :=
  traverse (transform_label le) y.

(** ** pandas: cells, series and frames *)

(** A numpy float: finite, or one of [inf], [-inf], [nan]. *)
Inductive npfloat :=
| Fin (q : Q)
| NonFin.

(** A cell of a table read by [pd.read_csv]: an integer, a float or a
    text.  Cells are finite as read ([NonFin] arises from arithmetic). *)
Inductive cell :=
| CInt (z : Z)
| CFloat (f : npfloat)
| CStr (s : string).

Abbreviation Series := (list cell).

(** The columns of the frame, in order. *)
Abbreviation DataFrame := (list (string * Series)).

Definition fadd (a b : npfloat) : npfloat :=
  match a, b with
  | Fin x, Fin y => Fin (x + y)
  | _, _ => NonFin
  end.

Definition fmul (a b : npfloat) : npfloat :=
  match a, b with
  | Fin x, Fin y => Fin (x * y)
  | _, _ => NonFin
  end.

(** numpy's division does not raise on a zero divisor: the quotient is
    [inf] or [nan]. *)
Definition fdiv (a b : npfloat) : npfloat :=
  match a, b with
  | Fin x, Fin y => if Qeq_bool y 0 then NonFin else Fin (x / y)
  | _, _ => NonFin
  end.

Definition as_float (c : cell) : option npfloat :=
  match c with
  | CInt z => Some (Fin (inject_Z z))
  | CFloat f => Some f
  | CStr _ => None
  end.

Definition unsupported_operand : exn :=
  TypeError "unsupported operand type(s)".

Fixpoint repeat_string (s : string) (n : nat) : string :=
  match n with
  | O => ""
  | S n' => s ++ repeat_string s n'
  end.

(** [a + b]: integers stay integers, two texts are concatenated. *)
Definition cell_add (a b : cell) : result cell :=
  match a, b with
  | CInt x, CInt y => ret (CInt (x + y))
  | CStr s, CStr t => ret (CStr (s ++ t))
  | _, _ =>
      match as_float a, as_float b with
      | Some x, Some y => ret (CFloat (fadd x y))
      | _, _ => raise unsupported_operand
      end
  end.

(** [a * b]: a text times an integer is that many copies of the text. *)
Definition cell_mul (a b : cell) : result cell :=
  match a, b with
  | CInt x, CInt y => ret (CInt (x * y))
  | CStr s, CInt n | CInt n, CStr s => ret (CStr (repeat_string s (Z.to_nat n)))
  | _, _ =>
      match as_float a, as_float b with
      | Some x, Some y => ret (CFloat (fmul x y))
      | _, _ => raise unsupported_operand
      end
  end.

(** [a / b]: true division, always a float. *)
Definition cell_div (a b : cell) : result cell :=
  match as_float a, as_float b with
  | Some x, Some y => ret (CFloat (fdiv x y))
  | _, _ => raise unsupported_operand
  end.

(** An operator between two columns of one frame (same index), cell by
    cell. *)
Fixpoint series_op (op : cell -> cell -> result cell) (a b : Series)
  : result Series :=
  match a, b with
  | x :: a', y :: b' =>
      try! z := op x y in
      try! zs := series_op op a' b' in
      ret (z :: zs)
  | _, _ => ret []
  end.

(** An operator between a column and a scalar. *)
Definition series_scalar (op : cell -> cell -> result cell)
  (a : Series) (k : cell) : result Series :=
  traverse (fun x => op x k) a.

(** [df[col]]. *)
Fixpoint df_get (df : DataFrame) (col : string) : result Series :=
  match df with
  | [] => raise (KeyError col)
  | (name, s) :: df' => if String.eqb name col then ret s else df_get df' col
  end.

(** [df[col] = s]: an existing column is replaced where it stands, a new
    one goes last. *)
Fixpoint df_set (df : DataFrame) (col : string) (s : Series) : DataFrame :=
  match df with
  | [] => [(col, s)]
  | (name, old) :: df' =>
      if String.eqb name col then (name, s) :: df'
      else (name, old) :: df_set df' col s
  end.

(** [df[cols]]: the listed columns, in the order of the list. *)
Definition df_select (df : DataFrame) (cols : list string) : result DataFrame :=
  traverse (fun col => try! s := df_get df col in ret (col, s)) cols.

(** [len(df)]. *)
Definition df_len (df : DataFrame) : nat :=
  match df with
  | [] => O
  | (_, s) :: _ => length s
  end.

(** [df[col] = values] for an array: its length must be that of the index. *)
Definition df_set_array (df : DataFrame) (col : string) (values : Series)
  : result DataFrame :=
  if Nat.eqb (length values) (df_len df) then ret (df_set df col values)
  else raise (ValueError "Length of values does not match length of index").

Definition df_columns (df : DataFrame) : list string := map fst df.

(** Row [i] of the frame as a record: [(column, cell)] in column order. *)
Definition df_row (df : DataFrame) (i : nat) : list (string * cell) :=
  map (fun '(name, s) => (name, nth i s (CFloat NonFin))) df.

(** [df.to_dict('records')]. *)
Definition to_dict_records (df : DataFrame) : list (list (string * cell)) :=
  map (df_row df) (seq 0 (df_len df)).

(** [LabelEncoder().fit_transform(column)]: the labels must be uniformly
    texts or uniformly numbers. *)
Inductive labels :=
| StrLabels (l : list string)
| NumLabels (l : list npfloat).

Definition npfloat_compare (a b : npfloat) : comparison :=
  match a, b with
  | Fin x, Fin y => (x ?= y)%Q
  | Fin _, NonFin => Lt
  | NonFin, Fin _ => Gt
  | NonFin, NonFin => Eq
  end.

Fixpoint all_text (y : Series) : option (list string) :=
  match y with
  | [] => Some []
  | CStr s :: y' => option_map (cons s) (all_text y')
  | _ :: _ => None
  end.

Fixpoint all_numbers (y : Series) : option (list npfloat) :=
  match y with
  | [] => Some []
  | c :: y' =>
      match as_float c, all_numbers y' with
      | Some f, Some l => Some (f :: l)
      | _, _ => None
      end
  end.

Definition uniform_labels (y : Series) : result labels :=
  match all_text y, all_numbers y with
  | Some l, _ => ret (StrLabels l)
  | None, Some l => ret (NumLabels l)
  | None, None =>
      raise (TypeError "Encoders require uniformly strings or numbers")
  end.

Definition encode {A} (cmp : A -> A -> comparison) (l : list A)
  : result Series :=
  let classes := np_unique cmp l in
  traverse (fun x => match index_of cmp x classes with
                 | Some i => ret (CInt (Z.of_nat i))
                 | None => raise unseen_labels
                 end) l.

Definition fit_transform (y : Series) : result Series :=
  try! ls := uniform_labels y in
  match ls with
  | StrLabels l => encode String.compare l
  | NumLabels l => encode npfloat_compare l
  end.

(** [pd.cut(x, bins, labels=labels)] with pandas' defaults [right=True],
    [include_lowest=False]: label [i] for [bins[i] < x <= bins[i+1]], and
    no label (a missing value) outside every interval. *)
Fixpoint pd_cut (bins : list Q) (labels : list string) (x : Q)
  : option string :=
  match bins, labels with
  | lo :: ((hi :: _) as bins'), l :: labels' =>
      if Qltb lo x && Qle_bool x hi then Some l else pd_cut bins' labels' x
  | _, _ => None
  end.

(** A missing label is a [nan] cell. *)
Definition category_cell (o : option string) : cell :=
  match o with
  | Some l => CStr l
  | None => CFloat NonFin
  end.

(** [endswith]. *)
Definition endswith (s suffix : string) : bool :=
  let n := String.length s in
  let k := String.length suffix in
  Nat.leb k n && String.eqb (substring (n - k) k s) suffix.

(** ** [src/api/app.py]: helpers *)

(** Lines 359-370 of [api_predict], "Determine risk level": the
    [if]/[elif]/[else] on [churn_prob] that sets [risk_level] and [color]. *)
Definition determine_risk_level (churn_prob : Q) : string * string :=
  if Qltb churn_prob (3 # 10) then ("Low", "green")
  else if Qltb churn_prob (7 # 10) then ("Medium", "orange")
  else ("High", "red").

Definition high_advice : list string :=
  ["🚨 High churn risk - Immediate intervention required";
   "💰 Offer loyalty discount or premium features";
   "📞 Schedule personal call from retention team"].

Definition medium_advice : list string :=
  ["⚠️  Monitor closely for changes in usage patterns";
   "📧 Send targeted re-engagement email campaign";
   "🎁 Offer upgrade incentives or bundled services"].

Definition low_advice : list string :=
  ["✅ Customer appears satisfied";
   "📊 Continue monitoring engagement metrics";
   "⭐ Consider for referral program"].

Definition annual_contract_advice : string :=
  "📝 Encourage upgrade to annual contract".

Definition tech_support_advice : string :=
  "🛠️  Promote tech support subscription".

(** [get_recommendations(churn_prob, customer_data)]. *)
Definition get_recommendations (churn_prob : Q) (customer_data : payload)
  : list string :=
  let recommendations :=
    if Qltb (7 # 10) churn_prob then high_advice
    else if Qltb (4 # 10) churn_prob then medium_advice
    else low_advice in
  let recommendations :=
    if py_eq (get customer_data "contract_type") (JStr "Month-to-Month")
    then (recommendations ++ [annual_contract_advice])%list
    else recommendations in
  let recommendations :=
    if py_eq (get customer_data "tech_support") (JNum 0)
    then (recommendations ++ [tech_support_advice])%list
    else recommendations in
  recommendations.

(** The feature columns, in the order the classifier was trained on. *)
Definition feature_cols : list string :=
  ["tenure"; "monthly_charges"; "total_charges";
   "contract_encoded"; "payment_encoded"; "internet_encoded";
   "streaming_tv"; "streaming_movies"; "tech_support"; "online_security";
   "avg_monthly_charge"; "contract_value"; "services_count"].

(** ** [src/api/app.py]: the scoring endpoints *)

(** The fields read from the payload (lines 239-248). *)
Record customer := {
  tenure : Q;
  monthly_charges : Q;
  total_charges : Q;
  contract_type : json;
  payment_method : json;
  internet_service : json;
  streaming_tv : Z;
  streaming_movies : Z;
  tech_support : Z;
  online_security : Z
}.

(** The body of a successful [/api/predict] response. *)
Record prediction := {
  churn_probability : Q;
  churn_prediction : Z;
  risk_level : string;
  color : string;
  recommendations : list string
}.

(** The [summary] of a batch response. *)
Record batch_summary := {
  total_customers : nat;
  high_risk : nat;
  medium_risk : nat;
  low_risk : nat;
  avg_churn_probability : npfloat
}.

Inductive response :=
| Predicted (p : prediction)
| BatchPredicted (summary : batch_summary)
    (results : list (list (string * cell)))
| Failure (status : Z) (error : string).

(** A row of the [predictions] table. *)
Record prediction_row := {
  user_id : Z;
  features : payload;
  row_probability : Q;
  row_prediction : Z
}.

(** A Python scalar division raises on a zero divisor. *)
Definition py_div (a b : Q) : result Q :=
  if Qeq_bool b 0 then raise (ZeroDivisionError "float division by zero")
  else ret (a / b)%Q.

(** [try: code = encoder.transform([value])[0]] / [except ValueError:
    code = dflt]; any other exception propagates. *)
Definition transform_or (le : LabelEncoder) (value : json) (dflt : Z)
  : result Z :=
  match transform le [value] with
  | inr (code :: _) => ret code
  | inr [] => raise (IndexError "index 0 is out of bounds")
  | inl (ValueError _) => ret dflt
  | inl e => raise e
  end.

Definition contract_encoder : LabelEncoder :=
  fit ["Month-to-Month"; "One year"; "Two year"].

Definition payment_encoder : LabelEncoder :=
  fit ["Electronic check"; "Mailed check"; "Bank transfer"; "Credit card"].

Definition internet_encoder : LabelEncoder :=
  fit ["DSL"; "Fiber optic"; "No"].

(** Lines 259-317 of [api_predict]: the derived features, the three
    encodings and the one-row frame handed to the classifier. *)
Definition single_features (c : customer) : result DataFrame :=
  try! avg_monthly_charge := py_div (total_charges c) (tenure c + 1)%Q in
  let contract_value := (monthly_charges c * tenure c)%Q in
  let services_count :=
    streaming_tv c + streaming_movies c + tech_support c + online_security c in
  try! contract_encoded := transform_or contract_encoder (contract_type c) 0 in
  try! payment_encoded := transform_or payment_encoder (payment_method c) 0 in
  try! internet_encoded := transform_or internet_encoder (internet_service c) 1 in
  ret [("tenure", [CFloat (Fin (tenure c))]);
       ("monthly_charges", [CFloat (Fin (monthly_charges c))]);
       ("total_charges", [CFloat (Fin (total_charges c))]);
       ("contract_encoded", [CInt contract_encoded]);
       ("payment_encoded", [CInt payment_encoded]);
       ("internet_encoded", [CInt internet_encoded]);
       ("streaming_tv", [CInt (streaming_tv c)]);
       ("streaming_movies", [CInt (streaming_movies c)]);
       ("tech_support", [CInt (tech_support c)]);
       ("online_security", [CInt (online_security c)]);
       ("avg_monthly_charge", [CFloat (Fin avg_monthly_charge)]);
       ("contract_value", [CFloat (Fin contract_value)]);
       ("services_count", [CInt services_count])].

(** Lines 428-456 of [api_batch_predict]: the derived columns, the encoders
    fitted on the table itself, and the selection [X = df[feature_cols]].
    Returns the extended frame and [X]. *)
Definition batch_features (df : DataFrame) : result (DataFrame * DataFrame) :=
  try! total := df_get df "total_charges" in
  try! ten := df_get df "tenure" in
  try! ten1 := series_scalar cell_add ten (CInt 1) in
  try! avg := series_op cell_div total ten1 in
  let df := df_set df "avg_monthly_charge" avg in
  try! monthly := df_get df "monthly_charges" in
  try! ten := df_get df "tenure" in
  try! value := series_op cell_mul monthly ten in
  let df := df_set df "contract_value" value in
  try! tv := df_get df "streaming_tv" in
  try! movies := df_get df "streaming_movies" in
  try! count := series_op cell_add tv movies in
  try! tech := df_get df "tech_support" in
  try! count := series_op cell_add count tech in
  try! security := df_get df "online_security" in
  try! count := series_op cell_add count security in
  let df := df_set df "services_count" count in
  try! contract := df_get df "contract_type" in
  try! contract := fit_transform contract in
  let df := df_set df "contract_encoded" contract in
  try! payment := df_get df "payment_method" in
  try! payment := fit_transform payment in
  let df := df_set df "payment_encoded" payment in
  try! internet := df_get df "internet_service" in
  try! internet := fit_transform internet in
  let df := df_set df "internet_encoded" internet in
  try! X := df_select df feature_cols in
  ret (df, X).

Definition count_if (f : Q -> bool) (l : list Q) : nat :=
  length (List.filter f l).

(** [predictions.mean()]: [nan] for an empty array. *)
Definition mean (l : list Q) : npfloat :=
  fdiv (Fin (fold_right Qplus 0%Q l)) (Fin (inject_Z (Z.of_nat (length l)))).

(** Lines 469-475: the summary counts. *)
Definition summarize (n : nat) (predictions : list Q) : batch_summary :=
  {| total_customers := n;
     high_risk := count_if (fun p => Qltb (7 # 10) p) predictions;
     medium_risk :=
       count_if (fun p => Qle_bool (3 # 10) p && Qle_bool p (7 # 10))
         predictions;
     low_risk := count_if (fun p => Qltb p (3 # 10)) predictions;
     avg_churn_probability := mean predictions |}.

(** Lines 464-466: the [risk_level] column of the batch. *)
Definition batch_risk_level (p : Q) : option string :=
  pd_cut [0; 3 # 10; 7 # 10; 1]%Q ["Low"; "Medium"; "High"] p.

Section Endpoints.

(** [float(s)] and [int(s)] of a string: [None] where Python raises
    [ValueError]. *)
Variable float_of_str : string -> option Q.
Variable int_of_str : string -> option Z.

(** The classifier of the pickled pipeline: for a feature frame, the
    probability of churn of each row ([predict_proba(X)[:, 1]]). *)
Abbreviation classifier := (DataFrame -> result (list Q)).

(** The module-level [model]: [None] when the artifact could not be loaded. *)
Variable model : option classifier.

(** The [predictions] table and the [INSERT], which may raise. *)
Variable DB : Type.
Variable db_insert : prediction_row -> DB -> result DB.

(** [current_user.id]. *)
Variable current_user_id : Z.

Definition py_float (v : json) : result Q :=
  match v with
  | JNum q => ret q
  | JBool b => ret (inject_Z (Z.b2z b))
  | JStr s =>
      match float_of_str s with
      | Some q => ret q
      | None => raise (ValueError ("could not convert string to float: " ++ repr s))
      end
  | JNull => raise (TypeError "float() argument must be a string or a real number, not 'NoneType'")
  end.

Definition py_int (v : json) : result Z :=
  match v with
  | JNum q => ret (Qtruncate q)
  | JBool b => ret (Z.b2z b)
  | JStr s =>
      match int_of_str s with
      | Some z => ret z
      | None => raise (ValueError ("invalid literal for int() with base 10: " ++ repr s))
      end
  | JNull => raise (TypeError "int() argument must be a string, a bytes-like object or a real number, not 'NoneType'")
  end.

(** Lines 239-248: "Extract and validate data". *)
Definition extract (data : payload) : result customer :=
  try! tenure := py_float (get_default data "tenure" (JNum 0)) in
  try! monthly_charges := py_float (get_default data "monthly_charges" (JNum 0)) in
  try! total_charges := py_float (get_default data "total_charges" (JNum 0)) in
  let contract_type := get_default data "contract_type" (JStr "Month-to-Month") in
  let payment_method := get_default data "payment_method" (JStr "Electronic check") in
  let internet_service := get_default data "internet_service" (JStr "Fiber optic") in
  try! streaming_tv := py_int (get_default data "streaming_tv" (JNum 0)) in
  try! streaming_movies := py_int (get_default data "streaming_movies" (JNum 0)) in
  try! tech_support := py_int (get_default data "tech_support" (JNum 0)) in
  try! online_security := py_int (get_default data "online_security" (JNum 0)) in
  ret {| tenure := tenure; monthly_charges := monthly_charges;
         total_charges := total_charges; contract_type := contract_type;
         payment_method := payment_method;
         internet_service := internet_service;
         streaming_tv := streaming_tv; streaming_movies := streaming_movies;
         tech_support := tech_support; online_security := online_security |}.

(** [model.predict_proba(features)[0][1]]. *)
Definition predict_one (clf : classifier) (X : DataFrame) : result Q :=
  try! probabilities := clf X in
  match probabilities with
  | p :: _ => ret p
  | [] => raise (IndexError "index 0 is out of bounds")
  end.

(** Lines 358-384: risk level, recommendations and the response body. *)
Definition respond (churn_prob : Q) (churn_prediction : Z) (data : payload)
  : prediction :=
  let '(risk_level, color) := determine_risk_level churn_prob in
  let recommendations := get_recommendations churn_prob data in
  {| churn_probability := py_round churn_prob 4;
     churn_prediction := churn_prediction;
     risk_level := risk_level;
     color := color;
     recommendations := recommendations |}.

(** [api_predict]: the response and the database after the call. *)
Definition api_predict (db : DB) (data : payload) : response * DB :=
  match model with
  | None =>
      (Failure 500 "Model not loaded. Please run: python src/models/train.py", db)
  | Some clf =>
      match extract data with
      | inl (ValueError _ as e) | inl (TypeError _ as e) =>
          (Failure 400 ("Invalid input data: " ++ str_exn e), db)
      | inl e => (Failure 400 (str_exn e), db)
      | inr c =>
          match single_features c with
          | inl e => (Failure 400 (str_exn e), db)
          | inr X =>
              match predict_one clf X with
              | inl e =>
                  (Failure 500 ("Model prediction failed: " ++ str_exn e), db)
              | inr churn_prob =>
                  let churn_prediction := Z.b2z (Qltb (1 # 2) churn_prob) in
                  let db :=
                    match db_insert
                            {| user_id := current_user_id; features := data;
                               row_probability := churn_prob;
                               row_prediction := churn_prediction |} db with
                    | inr db' => db'
                    | inl _ => db
                    end in
                  (Predicted (respond churn_prob churn_prediction data), db)
              end
          end
      end
  end.

(** Lines 428-489 of [api_batch_predict], inside the [try]. *)
Definition batch_body (clf : classifier) (df : DataFrame) : result response :=
  try! fx := batch_features df in
  let '(df, X) := fx in
  try! predictions := clf X in
  try! df := df_set_array df "churn_probability"
               (map (fun p => CFloat (Fin p)) predictions) in
  try! df := df_set_array df "churn_prediction"
               (map (fun p => CInt (Z.b2z (Qltb (1 # 2) p))) predictions) in
  try! df := df_set_array df "risk_level"
               (map (fun p => category_cell (batch_risk_level p)) predictions) in
  let summary := summarize (df_len df) predictions in
  let output_cols :=
    List.filter (fun col => negb (endswith col "_encoded")) (df_columns df) in
  try! out := df_select df output_cols in
  let results := to_dict_records out in
  ret (BatchPredicted summary (firstn 100 results)).

(** [api_batch_predict] on the table read from the uploaded file. *)
Definition api_batch_predict (df : DataFrame) : response :=
  match model with
  | None => Failure 500 "Model not loaded"
  | Some clf =>
      match batch_body clf df with
      | inr r => r
      | inl e => Failure 400 (str_exn e)
      end
  end.

End Endpoints.

(** ** [src/models/train.py]: [preprocess_data] *)

(** Returns [X], [y] and [feature_cols]. *)
Definition preprocess_data (df : DataFrame)
  : result (DataFrame * Series * list string) :=
  let data := df in
  try! ten := df_get data "tenure" in
  let data := df_set data "tenure_months" ten in
  try! total := df_get data "total_charges" in
  try! ten := df_get data "tenure" in
  try! ten1 := series_scalar cell_add ten (CInt 1) in
  try! avg := series_op cell_div total ten1 in
  let data := df_set data "avg_monthly_charge" avg in
  try! monthly := df_get data "monthly_charges" in
  try! ten := df_get data "tenure" in
  try! value := series_op cell_mul monthly ten in
  let data := df_set data "contract_value" value in
  try! tv := df_get data "streaming_tv" in
  try! movies := df_get data "streaming_movies" in
  try! count := series_op cell_add tv movies in
  try! tech := df_get data "tech_support" in
  try! count := series_op cell_add count tech in
  try! security := df_get data "online_security" in
  try! count := series_op cell_add count security in
  let data := df_set data "services_count" count in
  try! contract := df_get data "contract_type" in
  try! contract := fit_transform contract in
  let data := df_set data "contract_encoded" contract in
  try! payment := df_get data "payment_method" in
  try! payment := fit_transform payment in
  let data := df_set data "payment_encoded" payment in
  try! internet := df_get data "internet_service" in
  try! internet := fit_transform internet in
  let data := df_set data "internet_encoded" internet in
  try! X := df_select data feature_cols in
  try! y := df_get data "churn" in
  ret (X, y, feature_cols).

(** ** [scripts/generate_sample_data.py]: the customer table *)

(** One row of the frame that [generate_customer_data] builds. *)
Record customer_row := {
  row_customer_id : string;
  row_tenure : Z;
  row_monthly_charges : Q;
  row_total_charges : Q;
  row_contract_type : string;
  row_payment_method : string;
  row_internet_service : string;
  row_streaming_tv : bool;
  row_streaming_movies : bool;
  row_tech_support : bool;
  row_online_security : bool;
  row_churn : bool
}.

Definition flag (b : bool) : cell := CInt (Z.b2z b).

(** The frame of [generate_customer_data], column by column. *)
Definition customers_frame (rows : list customer_row) : DataFrame :=
  [("customer_id", map (fun r => CStr (row_customer_id r)) rows);
   ("tenure", map (fun r => CInt (row_tenure r)) rows);
   ("monthly_charges", map (fun r => CFloat (Fin (row_monthly_charges r))) rows);
   ("total_charges", map (fun r => CFloat (Fin (row_total_charges r))) rows);
   ("contract_type", map (fun r => CStr (row_contract_type r)) rows);
   ("payment_method", map (fun r => CStr (row_payment_method r)) rows);
   ("internet_service", map (fun r => CStr (row_internet_service r)) rows);
   ("streaming_tv", map (fun r => flag (row_streaming_tv r)) rows);
   ("streaming_movies", map (fun r => flag (row_streaming_movies r)) rows);
   ("tech_support", map (fun r => flag (row_tech_support r)) rows);
   ("online_security", map (fun r => flag (row_online_security r)) rows);
   ("churn", map (fun r => flag (row_churn r)) rows)].


(** ** The feature vector as the specification words it

    Section 4.1: thirteen fields in a fixed order, one column per field and
    one cell per row.  [tenure_cell] is how the table at hand writes a
    tenure (an integer in a CSV column, a float in a request), [ce], [pe]
    and [ie] are the codes of the three categorical fields and [avg] the
    values of avg_monthly_charge. *)

Definition spec_services_count (r : customer_row) : Z :=
  Z.b2z (row_streaming_tv r) + Z.b2z (row_streaming_movies r)
  + Z.b2z (row_tech_support r) + Z.b2z (row_online_security r).

Definition spec_feature_vector (tenure_cell : Z -> cell)
  (rows : list customer_row) (ce pe ie : list Z) (avg : list Q) : DataFrame :=
  [("tenure", map (fun r => tenure_cell (row_tenure r)) rows);
   ("monthly_charges", map (fun r => CFloat (Fin (row_monthly_charges r))) rows);
   ("total_charges", map (fun r => CFloat (Fin (row_total_charges r))) rows);
   ("contract_encoded", map CInt ce);
   ("payment_encoded", map CInt pe);
   ("internet_encoded", map CInt ie);
   ("streaming_tv", map (fun r => flag (row_streaming_tv r)) rows);
   ("streaming_movies", map (fun r => flag (row_streaming_movies r)) rows);
   ("tech_support", map (fun r => flag (row_tech_support r)) rows);
   ("online_security", map (fun r => flag (row_online_security r)) rows);
   ("avg_monthly_charge", map (fun q => CFloat (Fin q)) avg);
   ("contract_value",
    map (fun r => CFloat (Fin (row_monthly_charges r * inject_Z (row_tenure r))))
      rows);
   ("services_count", map (fun r => CInt (spec_services_count r)) rows)].

(** avg_monthly_charge = total_charges / (tenure + 1), row by row. *)
Definition spec_avg_monthly_charge (rows : list customer_row) (avg : list Q)
  : Prop :=
  Forall2
    (fun r q => (q == row_total_charges r / (inject_Z (row_tenure r) + 1))%Q)
    rows avg.

(** ** Required columns of a batch upload *)

Definition required_columns : list string :=
  ["tenure"; "monthly_charges"; "total_charges";
   "contract_type"; "payment_method"; "internet_service";
   "streaming_tv"; "streaming_movies"; "tech_support"; "online_security"].

Definition has_column (df : DataFrame) (col : string) : bool :=
  match df_get df col with
  | inr _ => true
  | inl _ => false
  end.

(** The order in which [api_batch_predict] first reads the required
    columns (lines 430-444). *)
Definition reading_order : list string :=
  ["total_charges"; "tenure"; "monthly_charges";
   "streaming_tv"; "streaming_movies"; "tech_support"; "online_security";
   "contract_type"; "payment_method"; "internet_service"].

Definition first_missing (df : DataFrame) : option string :=
  List.find (fun col => negb (has_column df col)) reading_order.

(** The columns that are present hold what their field is: numbers in the
    numeric and flag columns, text in the categorical ones. *)
Definition is_number (c : cell) : bool :=
  match as_float c with
  | Some _ => true
  | None => false
  end.

Definition is_text (c : cell) : bool :=
  match c with
  | CStr _ => true
  | _ => false
  end.

Definition column_all (p : cell -> bool) (df : DataFrame) (col : string)
  : bool :=
  match df_get df col with
  | inr s => forallb p s
  | inl _ => true
  end.

Definition well_typed (df : DataFrame) : bool :=
  forallb (column_all is_number df)
    ["tenure"; "monthly_charges"; "total_charges";
     "streaming_tv"; "streaming_movies"; "tech_support"; "online_security"]
  && forallb (column_all is_text df)
       ["contract_type"; "payment_method"; "internet_service"].

(** [col in msg]. *)
Fixpoint mentions (msg col : string) : bool :=
  String.prefix col msg
  || match msg with
     | EmptyString => false
     | String _ msg' => mentions msg' col
     end.

(** ** Sample inputs *)

(** A classifier that answers the given probabilities whatever the frame. *)
Definition constant_classifier (ps : list Q) : DataFrame -> result (list Q) :=
  fun _ => ret ps.

(** String conversions that accept nothing (no sample payload carries a
    number as text). *)
Definition no_float : string -> option Q := fun _ => None.
Definition no_int : string -> option Z := fun _ => None.

(** A database that stores the rows in a list, and one that is down. *)
Definition list_insert (r : prediction_row) (db : list prediction_row)
  : result (list prediction_row) := ret (r :: db).
Definition failing_insert (r : prediction_row) (db : list prediction_row)
  : result (list prediction_row) := raise (OtherError "database is locked").

Definition empty_payload : payload := ∅.

Definition monthly_payload : payload :=
  {[ "contract_type" := JStr "Month-to-Month" ]}.

Definition no_support_payload : payload :=
  {[ "tech_support" := JNum 0 ]}.

(** Three customers that differ in their payment method only. *)
Definition paying_with (method : string) : customer :=
  {| tenure := 12; monthly_charges := 20; total_charges := 240;
     contract_type := JStr "One year"; payment_method := JStr method;
     internet_service := JStr "DSL";
     streaming_tv := 1; streaming_movies := 0;
     tech_support := 1; online_security := 0 |}.

(** A table of three customers with every required column. *)
Definition three_customers : DataFrame :=
  [("tenure", [CInt 0; CInt 5; CInt 12]);
   ("monthly_charges", [CFloat (Fin 20); CFloat (Fin 30); CFloat (Fin 10)]);
   ("total_charges", [CFloat (Fin 100); CFloat (Fin 150); CFloat (Fin 120)]);
   ("contract_type", [CStr "Two year"; CStr "Month-to-Month"; CStr "Two year"]);
   ("payment_method",
    [CStr "Mailed check"; CStr "Electronic check"; CStr "Mailed check"]);
   ("internet_service", [CStr "No"; CStr "DSL"; CStr "No"]);
   ("streaming_tv", [CInt 0; CInt 1; CInt 1]);
   ("streaming_movies", [CInt 0; CInt 1; CInt 1]);
   ("tech_support", [CInt 0; CInt 0; CInt 1]);
   ("online_security", [CInt 0; CInt 1; CInt 1])].

(** The same table without its [tenure] column, and without [tenure] and
    [total_charges]. *)
Definition without_tenure : DataFrame := tl three_customers.
Definition without_tenure_and_total : DataFrame :=
  List.filter (fun '(name, _) => negb (String.eqb name "total_charges"))
    without_tenure.

(** A customer of the generated table, and a request that supplies the
    two fields the recommendations look at. *)
Definition sample_row : customer_row :=
  {| row_customer_id := "CUST_000001"; row_tenure := 0;
     row_monthly_charges := 20; row_total_charges := 100;
     row_contract_type := "Month-to-Month";
     row_payment_method := "Electronic check";
     row_internet_service := "Fiber optic";
     row_streaming_tv := true; row_streaming_movies := false;
     row_tech_support := false; row_online_security := true;
     row_churn := true |}.

Definition month_to_month_without_support : payload :=
  {[ "contract_type" := JStr "Month-to-Month"; "tech_support" := JNum 0 ]}.

(** The encoded columns of the feature frame. *)
Definition encoded_columns (X : result DataFrame) : result (list Series) :=
  try! X := X in
  traverse (df_get X) ["contract_encoded"; "payment_encoded"; "internet_encoded"].

(** The recommendations of a single-record response. *)
Definition response_recommendations (r : response) : option (list string) :=
  match r with
  | Predicted p => Some (recommendations p)
  | _ => None
  end.

(** [/api/predict] with the model loaded and answering [p], on an empty
    list database. *)
Definition predict_with (p : Q) (data : payload) : response :=
  fst (api_predict no_float no_int (Some (constant_classifier [p]))
         (list prediction_row) list_insert 1 [] data).

(** The [risk_level] entry of each record of a batch response. *)
Definition batch_risk_levels (r : response) : list (option cell) :=
  match r with
  | BatchPredicted _ results =>
      map (fun row => option_map snd
             (List.find (fun '(name, _) => String.eqb name "risk_level") row))
        results
  | _ => []
  end.

(** ** Valid records

    Section 2 of the specification: a tenure that is a non-negative
    integer, two charges that are non-negative floats, three categories
    that are values of their enumerations.  The numbers are kept where a
    rational and an integer stand for the machine numbers of the source: a
    tenure below the largest [int64], so that [tenure + 1] does not wrap
    around in a numpy column and [float(tenure)] does not overflow, and
    charges whose product with such a tenure is a finite double. *)

Definition int64_max : Z := 2 ^ 63 - 1.

Definition max_charge : Q := inject_Z (2 ^ 960).

Definition valid_numbers (r : customer_row) : bool :=
  (0 <=? row_tenure r) && (row_tenure r <? int64_max)
  && Qle_bool 0 (row_monthly_charges r)
  && Qle_bool (row_monthly_charges r) max_charge
  && Qle_bool 0 (row_total_charges r)
  && Qle_bool (row_total_charges r) max_charge.







(** The codes of a column on the batch and the training path, where the
    encoder is fitted on the column itself: the classes are the distinct
    values of the column in ascending order, and the code of a value is its
    position among them. *)
Definition ascending (classes : list string) : Prop :=
  StronglySorted (fun a b => String.compare a b = Lt) classes.

Definition fitted_codes (column : list string) (codes : list Z) : Prop :=
  exists classes,
    ascending classes /\
    (forall value, In value classes <-> In value column) /\
    Forall2 (fun value code =>
               0 <= code /\ nth_error classes (Z.to_nat code) = Some value)
      column codes.

(** ** The column of avg_monthly_charge *)

Definition avg_monthly_charge_column (X : result DataFrame) : result Series :=
  try! X := X in df_get X "avg_monthly_charge".

(** The feature frame of a batch. *)
Definition batch_X (df : DataFrame) : result DataFrame :=
  try! fx := batch_features df in ret (snd fx).

(** A cell that holds a finite number, and its value. *)
Definition finite_number (c : cell) : bool :=
  match as_float c with
  | Some (Fin _) => true
  | _ => false
  end.

Definition cell_value (c : cell) : Q :=
  match as_float c with
  | Some (Fin q) => q
  | _ => 0%Q
  end.

(** A tenure of at least 0: an [int64] below the largest one, or a finite
    float. *)
Definition nonnegative_tenure (c : cell) : bool :=
  match c with
  | CInt z => (0 <=? z) && (z <? int64_max)
  | CFloat (Fin q) => Qle_bool 0 q
  | _ => false
  end.

(** [avg] is the finite quotient total_charges / (tenure + 1) of the row. *)
Definition guarded_average (charges ten avg : cell) : Prop :=
  exists q, avg = CFloat (Fin q)
            /\ (q == cell_value charges / (cell_value ten + 1))%Q.

(** A customer with a tenure of 0 and total charges of 100. *)
Definition first_month_customer : customer :=
  {| tenure := 0; monthly_charges := 100; total_charges := 100;
     contract_type := JStr "Month-to-Month";
     payment_method := JStr "Electronic check";
     internet_service := JStr "Fiber optic";
     streaming_tv := 0; streaming_movies := 0;
     tech_support := 0; online_security := 0 |}.

(** ** Shape of a frame and of a batch response *)

(** Every column of the frame has [n] cells, as in any [DataFrame]. *)
Definition rectangular (n : nat) (df : DataFrame) : Prop :=
  Forall (fun column => length (snd column) = n) df.

(** Line 482 of [api_batch_predict]: the columns that are answered. *)
Definition output_columns (df : DataFrame) : list string :=
  List.filter (fun col => negb (endswith col "_encoded")) (df_columns df).

(** The categorical columns and the columns that receive their codes
    (lines 442-444). *)
Definition encoded_fields : list (string * string) :=
  [("contract_type", "contract_encoded");
   ("payment_method", "payment_encoded");
   ("internet_service", "internet_encoded")].

(** ** [src/auth/auth.py] and the account routes of [src/api/app.py] *)

(** A Python [str]: the list of its code points, so that [len] is the
    length of the list. *)
Abbreviation text := (list N).

(** An ASCII literal as a [str]. *)
Definition text_of (s : string) : text :=
  map N_of_ascii (list_ascii_of_string s).

(** The code points [str.isspace] accepts, which [str.strip()] removes. *)
Definition isspace (c : N) : bool :=
  ((9 <=? c) && (c <=? 13) || (28 <=? c) && (c <=? 32)
   || (c =? 133) || (c =? 160) || (c =? 5760)
   || (8192 <=? c) && (c <=? 8202)
   || (c =? 8232) || (c =? 8233) || (c =? 8239) || (c =? 8287)
   || (c =? 12288))%N.

Fixpoint lstrip (s : text) : text :=
  match s with
  | c :: s' => if isspace c then lstrip s' else s
  | [] => []
  end.

Definition strip (s : text) : text := rev (lstrip (rev (lstrip s))).

(** A row of the [users] table. *)
Record users_row := {
  users_id : Z;
  users_username : text;
  users_email : text;
  users_password_hash : text;
  users_is_admin : Z;
  users_created_at : Z
}.

(** The [users] table: its rows in insertion order and the largest id ever
    given ([AUTOINCREMENT]). *)
Record users_table := {
  users_rows : list users_row;
  users_seq : Z
}.

(** [class User]. *)
Record User := {
  User_id : Z;
  User_username : text;
  User_email : text;
  User_password_hash : text;
  User_is_admin : bool
}.

(** [SELECT * FROM users WHERE username = ?] and [fetchone]. *)
Definition select_by_username (t : users_table) (username : text)
  : option users_row :=
  List.find (fun r => bool_decide (users_username r = username)) (users_rows t).

(** [SELECT id FROM users WHERE email = ?] and [fetchone]. *)
Definition select_by_email (t : users_table) (email : text)
  : option users_row :=
  List.find (fun r => bool_decide (users_email r = email)) (users_rows t).

(** [SELECT * FROM users WHERE id = ?] and [fetchone]. *)
Definition select_by_id (t : users_table) (id : Z) : option users_row :=
  List.find (fun r => Z.eqb (users_id r) id) (users_rows t).

(** The [User(...)] built from a fetched row. *)
Definition User_of_row (row : users_row) : User :=
  {| User_id := users_id row;
     User_username := users_username row;
     User_email := users_email row;
     User_password_hash := users_password_hash row;
     User_is_admin := negb (Z.eqb (users_is_admin row) 0) |}.

(** [User.get(user_id)]. *)
Definition User_get (t : users_table) (user_id : Z) : option User :=
  option_map User_of_row (select_by_id t user_id).

(** [get_user_by_username(username)]. *)
Definition get_user_by_username (t : users_table) (username : text)
  : option User :=
  option_map User_of_row (select_by_username t username).

(** [INSERT INTO users (username, email, password_hash, is_admin)]: the
    [UNIQUE] constraints on [username] and [email] raise
    [sqlite3.IntegrityError] ([None] here); otherwise the row gets the next
    id, which is returned with the table. *)
Definition insert_user (t : users_table)
  (username email password_hash : text) (is_admin : Z) (now : Z)
  : option (users_table * Z) :=
  match select_by_username t username, select_by_email t email with
  | None, None =>
      let id := users_seq t + 1 in
      Some ({| users_rows :=
                 users_rows t ++
                 [{| users_id := id; users_username := username;
                     users_email := email;
                     users_password_hash := password_hash;
                     users_is_admin := is_admin;
                     users_created_at := now |}];
               users_seq := id |}, id)
  | _, _ => None
  end.

(** What a route answers: a redirect or a rendered template, with the
    messages flashed on the way. *)
Inductive page :=
| Redirect (endpoint : string) (flashes : list (string * string))
| Render (template : string) (flashes : list (string * string)).

Section Accounts.

(** werkzeug's [generate_password_hash], which draws a salt, and
    [check_password_hash]. *)
Variable salt : Type.
Variable generate_password_hash : salt -> text -> text.
Variable check_password_hash : text -> text -> bool.

(** [user.check_password(password)]. *)
Definition check_password (user : User) (password : text) : bool :=
  check_password_hash (User_password_hash user) password.

(** [create_user(username, password, email, is_admin)]: the table after
    the call and the user, or [None] on [IntegrityError]. *)
Definition create_user (t : users_table) (s : salt) (now : Z)
  (username password email : text) (is_admin : bool)
  : users_table * option User :=
  let password_hash := generate_password_hash s password in
  match insert_user t username email password_hash (Z.b2z is_admin) now with
  | Some (t', user_id) =>
      (t', Some {| User_id := user_id; User_username := username;
                   User_email := email;
                   User_password_hash := password_hash;
                   User_is_admin := is_admin |})
  | None => (t, None)
  end.

(** The [POST] branch of [login]: the page and the user logged in, if
    any. *)
Definition login (t : users_table) (username password : text)
  : page * option User :=
  match get_user_by_username t username with
  | Some user =>
      if check_password user password
      then (Redirect "dashboard" [("Login successful!", "success")], Some user)
      else (Render "login.html" [("Invalid username or password", "error")],
            None)
  | None =>
      (Render "login.html" [("Invalid username or password", "error")], None)
  end.

(** Lines 92-127 of [register]: the validation errors of the stripped
    fields, in the order they are appended. *)
Definition registration_errors (t : users_table)
  (username password email : text) : list string :=
  let nonempty (s : text) := negb (Nat.eqb (length s) 0) in
  (if nonempty username then [] else ["Username is required"])
  ++ (if nonempty password then [] else ["Password is required"])
  ++ (if nonempty email then [] else ["Email is required"])
  ++ (if nonempty username
         && (Nat.ltb (length username) 3 || Nat.ltb 50 (length username))
      then ["Username must be between 3 and 50 characters"] else [])
  ++ (if nonempty password && Nat.ltb (length password) 8
      then ["Password must be at least 8 characters"] else [])
  ++ (if nonempty email && negb (bool_decide (64%N ∈ email))
      then ["Invalid email format"] else [])
  ++ (if nonempty username
         && match get_user_by_username t username with
            | Some _ => true
            | None => false
            end
      then ["Username already exists"] else [])
  ++ (if nonempty email
         && match select_by_email t email with
            | Some _ => true
            | None => false
            end
      then ["Email already registered"] else []).

(** The [POST] branch of [register] on the submitted form fields. *)
Definition register (t : users_table) (s : salt) (now : Z)
  (form_username form_password form_email : text) : users_table * page :=
  let username := strip form_username in
  let password := strip form_password in
  let email := strip form_email in
  let errors := registration_errors t username password email in
  match errors with
  | _ :: _ =>
      (t, Render "register.html" (map (fun e => (e, "error")) errors))
  | [] =>
      match create_user t s now username password email false with
      | (t', Some _) =>
          (t', Redirect "login"
                 [("Registration successful! Please login.", "success")])
      | (t', None) =>
          (t', Render "register.html"
                 [("Registration failed. Please try again.", "error")])
      end
  end.

End Accounts.

(** Every username, email and id of the table occurs once, and no id
    exceeds the sequence. *)
Definition users_consistent (t : users_table) : Prop :=
  List.NoDup (map users_username (users_rows t)) /\
  List.NoDup (map users_email (users_rows t)) /\
  List.NoDup (map users_id (users_rows t)) /\
  Forall (fun r => users_id r <= users_seq t) (users_rows t).

(** The table after [init_db]. *)
Definition no_users : users_table := {| users_rows := []; users_seq := 0 |}.

(** A hash for the examples: the password itself, behind a marker. *)
Definition sample_hash (s : unit) (password : text) : text :=
  (text_of "plain$" ++ password)%list.
Definition sample_check (pwhash password : text) : bool :=
  bool_decide (pwhash = (text_of "plain$" ++ password)%list).

(** ** The [predictions] table and the queries of [src/api/app.py] on it *)

(** The rows of the table in insertion order.  Of each row the modelled
    queries read [churn_probability] alone. *)
Abbreviation predictions_table := (list prediction_row).

(** The [INSERT INTO predictions] of [api_predict] when the database
    accepts it. *)
Definition insert_prediction (row : prediction_row) (db : predictions_table)
  : result predictions_table :=
  ret (db ++ [row])%list.

(** The [CASE] of [api_segments]. *)
Definition segment (churn_probability : Q) : string :=
  if Qltb churn_probability (3 # 10) then "Low Risk"
  else if Qltb churn_probability (7 # 10) then "Medium Risk"
  else "High Risk".

(** A row of the answer of [api_segments]. *)
Record segment_row := {
  segment_name : string;
  segment_count : nat;
  avg_probability : Q
}.

Section Segments.

(** SQLite's [AVG] over a group that has rows.  It accumulates the sum in
    doubles, so what it answers is not the exact mean of the values (three
    rows of 0.7 average to 0.6999999999999998); the aggregate is kept
    opaque and nothing is derived from its value. *)
Variable sql_avg : list Q -> Q.

(** The group of one segment: [GROUP BY] answers no row for a segment
    without predictions. *)
Definition segment_group (db : predictions_table) (name : string)
  : list segment_row :=
  let values :=
    List.filter (fun p => String.eqb (segment p) name)
      (map row_probability db) in
  match values with
  | [] => []
  | _ :: _ => [{| segment_name := name; segment_count := length values;
                  avg_probability := sql_avg values |}]
  end.

(** [api_segments]: the groups, in the ascending order of their key in
    which SQLite answers a [GROUP BY]. *)
Definition api_segments (db : predictions_table) : list segment_row :=
  flat_map (segment_group db) ["High Risk"; "Low Risk"; "Medium Risk"].

End Segments.

(** Lines 164-170 of [dashboard]: the summary statistics. *)
Record dashboard_stats := {
  total_predictions : nat;
  high_risk_customers : nat;
  total_users : nat
}.

Definition dashboard (users : users_table) (db : predictions_table)
  : dashboard_stats :=
  {| total_predictions := length db;
     high_risk_customers :=
       count_if (fun p => Qltb (7 # 10) p) (map row_probability db);
     total_users := length (users_rows users) |}.

(** The count [api_segments] answers for a segment, 0 when it answers no
    row for it. *)
Definition segment_size (answer : list segment_row) (name : string) : nat :=
  match List.find (fun r => String.eqb (segment_name r) name) answer with
  | Some r => segment_count r
  | None => O
  end.

(** ** [scripts/generate_sample_data.py]: the churn probability of a
    generated customer *)

(** [np.clip(x, lo, hi)]. *)
Definition np_clip (x lo hi : Q) : Q :=
  let x := if Qltb x lo then lo else x in
  if Qltb hi x then hi else x.

(** Lines 91-116 of [generate_customer_data]: the probability with which
    the customer is marked as churned. *)
Definition generated_churn_prob (r : customer_row) : Q :=
  let prob := (3 # 10)%Q in
  let prob :=
    if String.eqb (row_contract_type r) "Month-to-Month"
    then (prob + (25 # 100))%Q
    else if String.eqb (row_contract_type r) "Two year"
         then (prob - (15 # 100))%Q
         else prob in
  let prob :=
    if row_tenure r <? 6 then (prob + (20 # 100))%Q
    else if 24 <? row_tenure r then (prob - (15 # 100))%Q
         else prob in
  let prob :=
    if Qltb 25 (row_monthly_charges r) then (prob + (15 # 100))%Q else prob in
  let prob :=
    if String.eqb (row_payment_method r) "Electronic check"
    then (prob + (10 # 100))%Q else prob in
  let services_count :=
    Z.b2z (row_streaming_tv r) + Z.b2z (row_streaming_movies r)
    + Z.b2z (row_tech_support r) + Z.b2z (row_online_security r) in
  let prob := (prob - inject_Z services_count * (5 # 100))%Q in
  np_clip prob (1 # 10) (9 # 10).

(** Lines 195-211 of [admin]: the gate on [current_user.is_admin] and the
    metrics of the panel. *)
Record admin_metrics := {
  metrics_total_users : nat;
  metrics_total_predictions : nat;
  metrics_avg_churn_probability : Q
}.

Section Admin.

(** SQLite's [AVG] over the whole table when it has rows (it answers [NULL],
    which [or 0] turns into 0, when it has none); opaque as in
    [api_segments]. *)
Variable sql_avg : list Q -> Q.

Definition admin (current_user : User) (users : users_table)
  (db : predictions_table) : page + admin_metrics :=
  if negb (User_is_admin current_user)
  then inl (Redirect "dashboard" [("Access denied - Admin only", "error")])
  else inr {| metrics_total_users := length (users_rows users);
              metrics_total_predictions := length db;
              metrics_avg_churn_probability :=
                match map row_probability db with
                | [] => 0
                | values => sql_avg values
                end |}.

End Admin.

(** The rows of a segment: the [WHERE] a [GROUP BY] key stands for. *)
Definition in_segment (name : string) (p : Q) : bool :=
  String.eqb (segment p) name.

(** ** More sample inputs *)

(** An instance of the aggregate for the examples: the mean without any
    rounding, which is what [AVG] answers on the groups of one row that the
    examples have. *)
Definition sample_avg (values : list Q) : Q :=
  (fold_right Qplus 0 values / inject_Z (Z.of_nat (length values)))%Q.

Definition null_tenure_payload : payload := {[ "tenure" := JNull ]}.

Definition negative_tenure_payload : payload := {[ "tenure" := JNum (-1) ]}.

(** A table whose customers all pay by mailed check. *)
Definition mailed_check_customers : DataFrame :=
  df_set three_customers "payment_method"
    [CStr "Mailed check"; CStr "Mailed check"; CStr "Mailed check"].

(** A table in which every contract type occurs. *)
Definition all_contracts_customers : DataFrame :=
  df_set three_customers "contract_type"
    [CStr "Two year"; CStr "Month-to-Month"; CStr "One year"].

Definition alice : text := text_of "alice".
Definition alice_password : text := text_of "correct horse".
Definition alice_email : text := text_of "alice@example.com".

(** The table after alice has registered. *)
Definition alice_registered : users_table :=
  fst (register unit sample_hash no_users tt 0
         (text_of "  alice ") (text_of "correct horse  ") alice_email).

(** A stored prediction with the given probability. *)
Definition stored (p : Q) : prediction_row :=
  {| user_id := 1; features := empty_payload;
     row_probability := p; row_prediction := Z.b2z (Qltb (1 # 2) p) |}.

(** The answer to a request scored 0.8. *)
Definition high_risk_answer : prediction := respond (8 # 10) 1 empty_payload.

(** The three customers scored 0.1, 0.5 and 0.9: the summary, the rows and
    the frames of the answer. *)
Definition three_scores : list Q := [1 # 10; 1 # 2; 9 # 10]%Q.

Definition three_scored_summary : batch_summary := summarize 3 three_scores.

Definition three_scored_results : list (list (string * cell)) :=
  match api_batch_predict (Some (constant_classifier three_scores))
          three_customers with
  | BatchPredicted _ results => results
  | _ => []
  end.

Definition frames_of (df : DataFrame) : DataFrame * DataFrame :=
  match batch_features df with
  | inr frames => frames
  | inl _ => ([], [])
  end.

(** alice as [create_user] answers her, and bob's form fields. *)
Definition alice_user : User :=
  {| User_id := 1; User_username := alice; User_email := alice_email;
     User_password_hash := sample_hash tt alice_password;
     User_is_admin := false |}.

Definition bob : text := text_of "bob".
Definition bob_password : text := text_of "battery staple".
Definition bob_email : text := text_of "bob@example.com".

(** The sample customer once tech support is subscribed. *)
Definition sample_row_with_support : customer_row :=
  {| row_customer_id := row_customer_id sample_row;
     row_tenure := row_tenure sample_row;
     row_monthly_charges := row_monthly_charges sample_row;
     row_total_charges := row_total_charges sample_row;
     row_contract_type := row_contract_type sample_row;
     row_payment_method := row_payment_method sample_row;
     row_internet_service := row_internet_service sample_row;
     row_streaming_tv := row_streaming_tv sample_row;
     row_streaming_movies := row_streaming_movies sample_row;
     row_tech_support := true;
     row_online_security := row_online_security sample_row;
     row_churn := row_churn sample_row |}.

(** * Properties *)

(** ** Comparisons *)

Lemma Qltb_lt a b : Qltb a b = true <-> (a < b)%Q.
Proof.
  unfold Qltb. rewrite negb_true_iff, <- not_true_iff_false, Qle_bool_iff.
  split; [apply Qnot_le_lt | apply Qlt_not_le].
Qed.

Lemma Qltb_ge a b : Qltb a b = false <-> (b <= a)%Q.
Proof.
  unfold Qltb. rewrite negb_false_iff. apply Qle_bool_iff.
Qed.

(** ** Risk tiers of the single-record scorer *)






(** ** The categorical encoder of the single-record scorer *)

(** The classes each encoder learns: its vocabulary in ascending order. *)
Lemma fitted_classes :
  classes_ contract_encoder = ["Month-to-Month"; "One year"; "Two year"] /\
  classes_ payment_encoder =
    ["Bank transfer"; "Credit card"; "Electronic check"; "Mailed check"] /\
  classes_ internet_encoder = ["DSL"; "Fiber optic"; "No"].
Proof. repeat split; reflexivity. Qed.

(** A value outside the classes makes [transform] raise [ValueError], and
    nothing else. *)
Lemma transform_or_total le v dflt :
  exists code, transform_or le v dflt = inr code.
Proof.
  unfold transform_or, transform. simpl.
  destruct v; simpl; eauto.
  destruct (index_of String.compare s (classes_ le)); simpl; eauto.
Qed.

(** In the listed order of the payment vocabulary, Electronic check would
    be 0 and Bank transfer 2; the encoder answers 2 and 0. *)
Lemma C1_payment_codes_not_in_listed_order :
  transform payment_encoder
    [JStr "Electronic check"; JStr "Mailed check";
     JStr "Bank transfer"; JStr "Credit card"]
  <> inr [0; 1; 2; 3].
Proof. vm_compute. discriminate. Qed.

(** C1 (amended): on every call the encoders give each vocabulary value
    its index in the ascending order of the vocabulary: Month-to-Month 0,
    One year 1, Two year 2; Bank transfer 0, Credit card 1, Electronic
    check 2, Mailed check 3; DSL 0, Fiber optic 1, No 2; whatever the
    fallback code of the call site. *)
Theorem C1_codes_follow_sorted_vocabulary (dflt : Z) :
  transform_or contract_encoder (JStr "Month-to-Month") dflt = inr 0 /\
  transform_or contract_encoder (JStr "One year") dflt = inr 1 /\
  transform_or contract_encoder (JStr "Two year") dflt = inr 2 /\
  transform_or payment_encoder (JStr "Bank transfer") dflt = inr 0 /\
  transform_or payment_encoder (JStr "Credit card") dflt = inr 1 /\
  transform_or payment_encoder (JStr "Electronic check") dflt = inr 2 /\
  transform_or payment_encoder (JStr "Mailed check") dflt = inr 3 /\
  transform_or internet_encoder (JStr "DSL") dflt = inr 0 /\
  transform_or internet_encoder (JStr "Fiber optic") dflt = inr 1 /\
  transform_or internet_encoder (JStr "No") dflt = inr 2.
Proof. repeat split; reflexivity. Qed.

(** The encoded columns of the frame handed to the classifier are the
    codes these encoders give, with the fallbacks 0, 0 and 1. *)
Lemma single_features_encodes (c : customer) (X : DataFrame) :
  single_features c = inr X ->
  exists ce pe ie,
    transform_or contract_encoder (contract_type c) 0 = inr ce /\
    transform_or payment_encoder (payment_method c) 0 = inr pe /\
    transform_or internet_encoder (internet_service c) 1 = inr ie /\
    encoded_columns (inr X) = inr [[CInt ce]; [CInt pe]; [CInt ie]].
Proof.
  unfold single_features. intros H.
  destruct (py_div (total_charges c) (tenure c + 1)) as [e | avg];
    [discriminate H |].
  cbn [bind] in H.
  destruct (transform_or contract_encoder (contract_type c) 0) as [e | ce];
    [discriminate H |].
  destruct (transform_or payment_encoder (payment_method c) 0) as [e | pe];
    [discriminate H |].
  destruct (transform_or internet_encoder (internet_service c) 1) as [e | ie];
    [discriminate H |].
  cbn [bind ret] in H. injection H as <-.
  exists ce, pe, ie. repeat split; reflexivity.
Qed.

(** C7 (the code at the failing input): a customer paying with "Cash", a
    method outside the vocabulary, is scored without an exception, but the
    payment code is 0, the code of Bank transfer, while Electronic check
    is 2. *)
Theorem C7_unknown_payment_gets_bank_transfer_code :
  encoded_columns (single_features (paying_with "Cash"))
    = inr [[CInt 1]; [CInt 0]; [CInt 0]] /\
  encoded_columns (single_features (paying_with "Bank transfer"))
    = inr [[CInt 1]; [CInt 0]; [CInt 0]] /\
  encoded_columns (single_features (paying_with "Electronic check"))
    = inr [[CInt 1]; [CInt 2]; [CInt 0]].
Proof. repeat split; reflexivity. Qed.

Lemma transform_or_unseen le (v : string) dflt :
  index_of String.compare v (classes_ le) = None ->
  transform_or le (JStr v) dflt = inr dflt.
Proof.
  intros H. unfold transform_or, transform, traverse, transform_label.
  rewrite H. reflexivity.
Qed.

(** The other two fallbacks are the codes of the documented defaults, and
    an unknown value never raises. *)
Lemma unknown_contract_and_internet_defaults (v : string) :
  index_of String.compare v (classes_ contract_encoder) = None ->
  index_of String.compare v (classes_ internet_encoder) = None ->
  transform_or contract_encoder (JStr v) 0
    = transform_or contract_encoder (JStr "Month-to-Month") 0 /\
  transform_or internet_encoder (JStr v) 1
    = transform_or internet_encoder (JStr "Fiber optic") 1.
Proof.
  intros Hc Hi.
  rewrite (transform_or_unseen contract_encoder v 0 Hc).
  rewrite (transform_or_unseen internet_encoder v 1 Hi).
  split; reflexivity.
Qed.

(** ** Risk tiers of the batch scorer *)

(** Away from the three boundary values the batch tier is the tier of the
    single-record scorer. *)
Lemma batch_tier_agrees_inside (p : Q) :
  (0 < p <= 1)%Q -> ~ (p == 3 # 10)%Q -> ~ (p == 7 # 10)%Q ->
  batch_risk_level p = Some (fst (determine_risk_level p)).
Proof.
  intros [H0 H1] H3 H7.
  unfold batch_risk_level, pd_cut, determine_risk_level.
  assert (E0 : Qltb 0 p = true) by (apply Qltb_lt; lra).
  rewrite E0. simpl.
  destruct (Qltb p (3 # 10)) eqn:A.
  - apply Qltb_lt in A.
    assert (E : Qle_bool p (3 # 10) = true) by (apply Qle_bool_iff; lra).
    rewrite E. reflexivity.
  - apply Qltb_ge in A.
    assert (E : Qle_bool p (3 # 10) = false).
    { apply not_true_iff_false. rewrite Qle_bool_iff. intros B.
      apply H3. lra. }
    rewrite E.
    assert (E3 : Qltb (3 # 10) p = true).
    { apply Qltb_lt. destruct (Qlt_le_dec (3 # 10) p) as [B | B]; [exact B |].
      exfalso. apply H3. lra. }
    rewrite E3. simpl.
    destruct (Qltb p (7 # 10)) eqn:C.
    + apply Qltb_lt in C.
      assert (E7 : Qle_bool p (7 # 10) = true) by (apply Qle_bool_iff; lra).
      rewrite E7. reflexivity.
    + apply Qltb_ge in C.
      assert (E7 : Qle_bool p (7 # 10) = false).
      { apply not_true_iff_false. rewrite Qle_bool_iff. intros B.
        apply H7. lra. }
      rewrite E7.
      assert (E8 : Qltb (7 # 10) p = true).
      { apply Qltb_lt. destruct (Qlt_le_dec (7 # 10) p) as [B | B]; [exact B |].
        exfalso. apply H7. lra. }
      rewrite E8.
      assert (E9 : Qle_bool p 1 = true) by (apply Qle_bool_iff; lra).
      rewrite E9. reflexivity.
Qed.

(** C2 (the code at the failing input): three rows scored 0, 0.3 and 0.7.
    The batch answers no tier, Low and Medium; the single-record scorer
    answers Low, Medium and High for the same probabilities.  The summary of
    the same response counts one low and two medium rows. *)
Theorem C2_batch_tiers_at_the_boundaries :
  let r := api_batch_predict
             (Some (constant_classifier [0; 3 # 10; 7 # 10]%Q))
             three_customers in
  batch_risk_levels r
    = [Some (CFloat NonFin); Some (CStr "Low"); Some (CStr "Medium")] /\
  map (fun p => fst (determine_risk_level p)) [0; 3 # 10; 7 # 10]%Q
    = ["Low"; "Medium"; "High"] /\
  (exists s results,
      r = BatchPredicted s results /\
      low_risk s = 1%nat /\ medium_risk s = 2%nat /\ high_risk s = 0%nat).
Proof.
  split; [vm_compute; reflexivity |].
  split; [vm_compute; reflexivity |].
  eexists. eexists. split; [vm_compute; reflexivity |].
  repeat split.
Qed.

(** ** Recommendations *)

Lemma supplied_contract_test (data : payload) (ct : string) :
  data !! "contract_type" = Some (JStr ct) ->
  py_eq (get data "contract_type") (JStr "Month-to-Month")
    = String.eqb ct "Month-to-Month".
Proof. intros H. unfold get, get_default. rewrite H. reflexivity. Qed.

Lemma supplied_support_test (data : payload) (ts : bool) :
  data !! "tech_support" = Some (JNum (inject_Z (Z.b2z ts))) ->
  py_eq (get data "tech_support") (JNum 0) = negb ts.
Proof.
  intros H. unfold get, get_default. rewrite H. destruct ts; reflexivity.
Qed.

(** Probabilities 0.35 and 0.5 are both Medium, yet the first gets the
    advice of a satisfied customer and the second the advice to monitor;
    0.7 is High and gets the advice to monitor as well. *)
Lemma C5_same_tier_different_advice :
  fst (determine_risk_level (35 # 100)) = fst (determine_risk_level (1 # 2)) /\
  get_recommendations (35 # 100) empty_payload = low_advice /\
  get_recommendations (1 # 2) empty_payload = medium_advice /\
  get_recommendations (35 # 100) empty_payload
    <> get_recommendations (1 # 2) empty_payload /\
  fst (determine_risk_level (7 # 10)) = "High" /\
  get_recommendations (7 # 10) empty_payload = medium_advice.
Proof.
  repeat split; try reflexivity.
  vm_compute. discriminate.
Qed.

(** C5 (amended): for a request that supplies contract_type and
    tech_support (as 0 or 1), the recommendations are three lines of
    generic advice chosen by the probability alone - the urgent ones above
    0.7, the monitoring ones above 0.4 and up to 0.7, the satisfied ones up
    to 0.4 - followed by the annual-contract line exactly when
    contract_type is Month-to-Month and by the tech-support line exactly
    when tech_support is 0. *)
Theorem C5_recommendations_by_band_and_supplied_fields
  (p : Q) (data : payload) (ct : string) (ts : bool) :
  data !! "contract_type" = Some (JStr ct) ->
  data !! "tech_support" = Some (JNum (inject_Z (Z.b2z ts))) ->
  let recs := get_recommendations p data in
  let generic := firstn 3 recs in
  ((7 # 10 < p)%Q -> generic = high_advice) /\
  ((4 # 10 < p)%Q /\ (p <= 7 # 10)%Q -> generic = medium_advice) /\
  ((p <= 4 # 10)%Q -> generic = low_advice) /\
  recs = (generic
          ++ (if String.eqb ct "Month-to-Month"
              then [annual_contract_advice] else [])
          ++ (if ts then [] else [tech_support_advice]))%list /\
  (In annual_contract_advice recs <-> ct = "Month-to-Month") /\
  (In tech_support_advice recs <-> ts = false).
Proof.
  intros Hct Hts recs generic. subst generic recs.
  unfold get_recommendations.
  rewrite (supplied_contract_test data ct Hct).
  rewrite (supplied_support_test data ts Hts).
  assert (Hm : String.eqb ct "Month-to-Month" = true <-> ct = "Month-to-Month")
    by apply String.eqb_eq.
  destruct (Qltb (7 # 10) p) eqn:H7;
    [apply Qltb_lt in H7 | apply Qltb_ge in H7;
     destruct (Qltb (4 # 10) p) eqn:H4;
     [apply Qltb_lt in H4 | apply Qltb_ge in H4]];
    destruct (String.eqb ct "Month-to-Month"); destruct ts;
    cbn [negb app firstn high_advice medium_advice low_advice];
    (split; [intros; try reflexivity; exfalso; lra |]);
    (split; [intros; try reflexivity; exfalso; lra |]);
    (split; [intros; try reflexivity; exfalso; lra |]);
    (split; [reflexivity |]);
    (split; (split;
       [ intros HIn; try (apply Hm; reflexivity); try reflexivity;
         exfalso; simpl in HIn;
         repeat (destruct HIn as [HIn | HIn]; [discriminate HIn |]);
         exact HIn
       | intros HEq; try (apply Hm in HEq; discriminate HEq);
         try discriminate HEq; simpl; tauto ])).
Qed.

Lemma C5_recommendations_by_band_and_supplied_fields_witness :
  get_recommendations (1 # 2) month_to_month_without_support
  = (medium_advice ++ [annual_contract_advice; tech_support_advice])%list.
Proof.
  pose proof (C5_recommendations_by_band_and_supplied_fields (1 # 2)
                month_to_month_without_support "Month-to-Month" false
                eq_refl eq_refl) as H.
  cbv zeta in H.
  destruct H as [_ [Hmed [_ [Hrecs _]]]].
  rewrite Hrecs, Hmed; [reflexivity |].
  split; unfold Qlt, Qle; simpl; lia.
Defined.

(** ** Defaults of omitted fields *)

(** The feature side applies every default: the empty payload and the
    payload that spells the defaults out are read as the same customer. *)
Lemma omitted_fields_read_as_defaults :
  extract no_float no_int empty_payload
  = extract no_float no_int
      (list_to_map
         [("tenure", JNum 0); ("monthly_charges", JNum 0);
          ("total_charges", JNum 0);
          ("contract_type", JStr "Month-to-Month");
          ("payment_method", JStr "Electronic check");
          ("internet_service", JStr "Fiber optic");
          ("streaming_tv", JNum 0); ("streaming_movies", JNum 0);
          ("tech_support", JNum 0); ("online_security", JNum 0)]).
Proof. vm_compute. reflexivity. Qed.

(** C6 (the code at the failing input): with the model answering 0.2, the
    empty payload, the payload that only spells out the default
    contract_type and the payload that only spells out the default
    tech_support are read as the same customer, but the three responses
    carry different recommendation lists. *)
Theorem C6_omitted_default_changes_recommendations :
  extract no_float no_int monthly_payload
    = extract no_float no_int empty_payload /\
  extract no_float no_int no_support_payload
    = extract no_float no_int empty_payload /\
  response_recommendations (predict_with (2 # 10) empty_payload)
    = Some low_advice /\
  response_recommendations (predict_with (2 # 10) monthly_payload)
    = Some (low_advice ++ [annual_contract_advice])%list /\
  response_recommendations (predict_with (2 # 10) no_support_payload)
    = Some (low_advice ++ [tech_support_advice])%list.
Proof. repeat split; vm_compute; reflexivity. Qed.

(** ** The division guard *)

Lemma guarded_divisor_nonzero (t : Q) :
  (0 <= t)%Q -> Qeq_bool (t + 1) 0 = false.
Proof.
  intros H. apply not_true_iff_false. intros E.
  apply Qeq_bool_eq in E. lra.
Qed.

(** ** Persistence failures *)

Section Persistence.

Variable float_of_str : string -> option Q.
Variable int_of_str : string -> option Z.
Variable clf : DataFrame -> result (list Q).
Variable DB : Type.
Variable db_insert : prediction_row -> DB -> result DB.
Variable current_user_id : Z.

(** C10: once the classifier has answered a probability, the response is
    the successful score (probability, prediction, risk level,
    recommendations) whatever the insert does; when the insert raises, the
    response is that same score and the database is left as it was. *)
Theorem C10_insert_failure_not_surfaced
  (db : DB) (data : payload) (c : customer) (X : DataFrame) (p : Q) :
  extract float_of_str int_of_str data = inr c ->
  single_features c = inr X ->
  predict_one clf X = inr p ->
  let score := Predicted (respond p (Z.b2z (Qltb (1 # 2) p)) data) in
  fst (api_predict float_of_str int_of_str (Some clf) DB db_insert
         current_user_id db data) = score /\
  (forall e,
      db_insert {| user_id := current_user_id; features := data;
                   row_probability := p;
                   row_prediction := Z.b2z (Qltb (1 # 2) p) |} db = inl e ->
      api_predict float_of_str int_of_str (Some clf) DB db_insert
        current_user_id db data = (score, db)).
Proof.
  intros Hc HX Hp score. unfold api_predict.
  rewrite Hc, HX, Hp. split; [reflexivity |].
  intros e He. rewrite He. reflexivity.
Qed.

End Persistence.

Lemma C10_insert_failure_not_surfaced_witness :
  api_predict no_float no_int (Some (constant_classifier [2 # 10]%Q))
    (list prediction_row) failing_insert 1 [] monthly_payload
  = (Predicted (respond (2 # 10) 0 monthly_payload), []).
Proof.
  refine (proj2 (C10_insert_failure_not_surfaced no_float no_int
                   (constant_classifier [2 # 10]%Q) (list prediction_row)
                   failing_insert 1 [] monthly_payload
                   {| tenure := 0; monthly_charges := 0; total_charges := 0;
                      contract_type := JStr "Month-to-Month";
                      payment_method := JStr "Electronic check";
                      internet_service := JStr "Fiber optic";
                      streaming_tv := 0; streaming_movies := 0;
                      tech_support := 0; online_security := 0 |}
                   _ (2 # 10)%Q _ _ _)
            (OtherError "database is locked") _).
  - vm_compute. reflexivity.
  - vm_compute. reflexivity.
  - reflexivity.
  - reflexivity.
Defined.

(** ** Columns and encoders of a frame *)

Lemma traverse_map {A B C} (f : B -> result C) (g : A -> B) (h : A -> C)
  (l : list A) :
  Forall (fun a => f (g a) = inr (h a)) l ->
  traverse f (map g l) = inr (map h l).
Proof.
  induction 1 as [| a l Ha _ IH]; simpl; [reflexivity |].
  rewrite Ha, IH. reflexivity.
Qed.

Lemma series_op_map {A} op (f g h : A -> cell) (l : list A) :
  Forall (fun a => op (f a) (g a) = inr (h a)) l ->
  series_op op (map f l) (map g l) = inr (map h l).
Proof.
  induction 1 as [| a l Ha _ IH]; simpl; [reflexivity |].
  rewrite Ha, IH. reflexivity.
Qed.

Lemma all_text_map {A} (f : A -> string) (l : list A) :
  all_text (map (fun a => CStr (f a)) l) = Some (map f l).
Proof.
  induction l as [| a l IH]; simpl; [reflexivity |].
  rewrite IH. reflexivity.
Qed.

Section UniqueFacts.
Context {A : Type} (cmp : A -> A -> comparison).
Hypothesis cmp_refl : forall x, cmp x x = Eq.

Lemma index_of_cons x h t :
  index_of cmp x (h :: t) <> None <->
  cmp x h = Eq \/ index_of cmp x t <> None.
Proof.
  simpl. destruct (cmp x h); destruct (index_of cmp x t); simpl;
    intuition (try discriminate; try congruence).
Qed.

Lemma index_of_insert_same x l :
  index_of cmp x (insert_unique cmp x l) <> None.
Proof.
  induction l as [| h t IH]; simpl.
  - rewrite cmp_refl. discriminate.
  - destruct (cmp x h) eqn:E; apply index_of_cons; auto.
Qed.

Lemma index_of_insert_other x y l :
  index_of cmp x l <> None ->
  index_of cmp x (insert_unique cmp y l) <> None.
Proof.
  induction l as [| h t IH]; [simpl; contradiction |].
  intros H. apply index_of_cons in H. simpl.
  destruct (cmp y h) eqn:E.
  - apply index_of_cons. exact H.
  - apply index_of_cons. right. apply index_of_cons. exact H.
  - apply index_of_cons. destruct H as [H | H]; auto.
Qed.

Lemma index_of_unique x l :
  In x l -> index_of cmp x (np_unique cmp l) <> None.
Proof.
  induction l as [| h t IH]; simpl; [contradiction |].
  intros [-> | H].
  - apply index_of_insert_same.
  - apply index_of_insert_other. apply IH. exact H.
Qed.

Lemma encode_total (l : list A) :
  exists codes, encode cmp l = inr (map CInt codes) /\ length codes = length l.
Proof.
  unfold encode.
  assert (H : forall l', (forall x, In x l' -> In x l) ->
    exists codes,
      traverse (fun x => match index_of cmp x (np_unique cmp l) with
                         | Some i => ret (CInt (Z.of_nat i))
                         | None => raise unseen_labels
                         end) l' = inr (map CInt codes)
      /\ length codes = length l').
  { induction l' as [| a l' IH]; intros Hin.
    - exists []. split; reflexivity.
    - destruct IH as [codes [E L]]; [intros x Hx; apply Hin; right; exact Hx |].
      pose proof (index_of_unique a l (Hin a (or_introl eq_refl))) as Ha.
      simpl. destruct (index_of cmp a (np_unique cmp l)) as [i |]; [| contradiction].
      exists (Z.of_nat i :: codes). simpl. rewrite E. simpl. rewrite L. split; reflexivity. }
  apply H. auto.
Qed.
End UniqueFacts.

Lemma string_compare_refl s : String.compare s s = Eq.
Proof.
  pose proof (String.compare_antisym s s) as H.
  destruct (String.compare s s); simpl in H; try discriminate H; reflexivity.
Qed.

Lemma fit_transform_text {A} (f : A -> string) (l : list A) :
  exists codes,
    fit_transform (map (fun a => CStr (f a)) l) = inr (map CInt codes)
    /\ length codes = length l.
Proof.
  unfold fit_transform, uniform_labels. rewrite all_text_map. simpl.
  destruct (encode_total String.compare string_compare_refl (map f l))
    as [codes [E L]].
  exists codes. rewrite E, L, length_map. split; reflexivity.
Qed.

Lemma tenure_plus_one (rows : list customer_row) :
  series_scalar cell_add (map (fun r => CInt (row_tenure r)) rows) (CInt 1)
  = inr (map (fun r => CInt (row_tenure r + 1)) rows).
Proof.
  apply traverse_map with (h := fun r => CInt (row_tenure r + 1)).
  apply Forall_forall. reflexivity.
Qed.

Lemma average_column (rows : list customer_row) :
  Forall (fun r => 0 <= row_tenure r) rows ->
  series_op cell_div
    (map (fun r => CFloat (Fin (row_total_charges r))) rows)
    (map (fun r => CInt (row_tenure r + 1)) rows)
  = inr (map (fun r => CFloat (Fin (row_total_charges r
                                     / inject_Z (row_tenure r + 1)))) rows).
Proof.
  intros H. apply series_op_map.
  eapply Forall_impl; [exact H |].
  intros r Hr. unfold cell_div. simpl.
  assert (E : Qeq_bool (inject_Z (row_tenure r + 1)) 0 = false).
  { apply not_true_iff_false. intros E. apply Qeq_bool_eq in E.
    change 0%Q with (inject_Z 0) in E.
    apply (proj1 (inject_Z_injective _ _)) in E. simpl in Hr. lia. }
  rewrite E. reflexivity.
Qed.

Lemma value_column (rows : list customer_row) :
  series_op cell_mul
    (map (fun r => CFloat (Fin (row_monthly_charges r))) rows)
    (map (fun r => CInt (row_tenure r)) rows)
  = inr (map (fun r => CFloat (Fin (row_monthly_charges r
                                     * inject_Z (row_tenure r)))) rows).
Proof. apply series_op_map. apply Forall_forall. reflexivity. Qed.

Lemma count_column {A} (f : A -> Z) (g : A -> bool) (rows : list A) :
  series_op cell_add (map (fun r => CInt (f r)) rows)
    (map (fun r => flag (g r)) rows)
  = inr (map (fun r => CInt (f r + Z.b2z (g r))) rows).
Proof. apply series_op_map. apply Forall_forall. reflexivity. Qed.

Lemma batch_average_spec (rows : list customer_row) :
  spec_avg_monthly_charge rows
    (map (fun r => row_total_charges r / inject_Z (row_tenure r + 1))%Q rows).
Proof.
  unfold spec_avg_monthly_charge.
  induction rows as [| r rows IH]; simpl; constructor; [| exact IH].
  rewrite inject_Z_plus. reflexivity.
Qed.


Ltac frame_step :=
  cbn [df_get df_set String.eqb Ascii.eqb Bool.eqb bind ret].

(** ** The feature vector *)


Section SingleRecord.
Variable float_of_str : string -> option Q.
Variable int_of_str : string -> option Z.


Lemma single_features_of_customer (c : customer) :
  (0 <= tenure c)%Q ->
  exists ce pe ie,
    single_features c
    = inr [("tenure", [CFloat (Fin (tenure c))]);
       ("monthly_charges", [CFloat (Fin (monthly_charges c))]);
       ("total_charges", [CFloat (Fin (total_charges c))]);
       ("contract_encoded", [CInt ce]);
       ("payment_encoded", [CInt pe]);
       ("internet_encoded", [CInt ie]);
       ("streaming_tv", [CInt (streaming_tv c)]);
       ("streaming_movies", [CInt (streaming_movies c)]);
       ("tech_support", [CInt (tech_support c)]);
       ("online_security", [CInt (online_security c)]);
       ("avg_monthly_charge", [CFloat (Fin (total_charges c / (tenure c + 1)))]);
       ("contract_value", [CFloat (Fin (monthly_charges c * tenure c))]);
       ("services_count", [CInt (streaming_tv c + streaming_movies c + tech_support c + online_security c)])].
Proof.
  intros Ht.
  destruct (transform_or_total contract_encoder (contract_type c) 0) as [ce Ece].
  destruct (transform_or_total payment_encoder (payment_method c) 0) as [pe Epe].
  destruct (transform_or_total internet_encoder (internet_service c) 1) as [ie Eie].
  exists ce, pe, ie.
  unfold single_features, py_div.
  rewrite (guarded_divisor_nonzero (tenure c) Ht).
  cbn [bind ret]. rewrite Ece, Epe, Eie. reflexivity.
Qed.
End SingleRecord.

(** Two requests seen end to end: a new month-to-month customer without
    services, and a long-standing two-year customer with all four. *)
Example new_customer_features :
  single_features
    {| tenure := 1; monthly_charges := 20; total_charges := 20;
       contract_type := JStr "Month-to-Month";
       payment_method := JStr "Electronic check";
       internet_service := JStr "Fiber optic";
       streaming_tv := 0; streaming_movies := 0;
       tech_support := 0; online_security := 0 |}
  = inr [("tenure", [CFloat (Fin 1)]);
         ("monthly_charges", [CFloat (Fin 20)]);
         ("total_charges", [CFloat (Fin 20)]);
         ("contract_encoded", [CInt 0]);
         ("payment_encoded", [CInt 2]);
         ("internet_encoded", [CInt 1]);
         ("streaming_tv", [CInt 0]); ("streaming_movies", [CInt 0]);
         ("tech_support", [CInt 0]); ("online_security", [CInt 0]);
         ("avg_monthly_charge", [CFloat (Fin (20 # 2))]);
         ("contract_value", [CFloat (Fin 20)]);
         ("services_count", [CInt 0])].
Proof. reflexivity. Qed.

Example loyal_customer_features :
  single_features
    {| tenure := 60; monthly_charges := 12; total_charges := 720;
       contract_type := JStr "Two year";
       payment_method := JStr "Credit card";
       internet_service := JStr "DSL";
       streaming_tv := 1; streaming_movies := 1;
       tech_support := 1; online_security := 1 |}
  = inr [("tenure", [CFloat (Fin 60)]);
         ("monthly_charges", [CFloat (Fin 12)]);
         ("total_charges", [CFloat (Fin 720)]);
         ("contract_encoded", [CInt 2]);
         ("payment_encoded", [CInt 1]);
         ("internet_encoded", [CInt 0]);
         ("streaming_tv", [CInt 1]); ("streaming_movies", [CInt 1]);
         ("tech_support", [CInt 1]); ("online_security", [CInt 1]);
         ("avg_monthly_charge", [CFloat (Fin (720 # 61))]);
         ("contract_value", [CFloat (Fin 720)]);
         ("services_count", [CInt 4])].
Proof. reflexivity. Qed.


(** ** A batch upload that lacks a required column *)

Lemma df_get_error df col e : df_get df col = inl e -> e = KeyError col.
Proof.
  induction df as [| [name s] df IH]; simpl.
  - intros H. injection H as <-. reflexivity.
  - destruct (String.eqb name col); [discriminate | exact IH].
Qed.

Lemma df_get_set_ne df a s col :
  String.eqb a col = false -> df_get (df_set df a s) col = df_get df col.
Proof.
  intros Hne. induction df as [| [name old] df IH]; simpl.
  - rewrite Hne. reflexivity.
  - destruct (String.eqb name a) eqn:E; simpl.
    + apply String.eqb_eq in E. subst name. rewrite Hne. reflexivity.
    + destruct (String.eqb name col); [reflexivity | exact IH].
Qed.

Lemma series_op_numbers op a b :
  (forall x y, is_number x = true -> is_number y = true ->
               exists z, op x y = inr z /\ is_number z = true) ->
  forallb is_number a = true -> forallb is_number b = true ->
  exists r, series_op op a b = inr r /\ forallb is_number r = true.
Proof.
  intros Hop. revert b.
  induction a as [| x a IH]; intros b Ha Hb; simpl.
  - exists []. split; reflexivity.
  - destruct b as [| y b]; [exists []; split; reflexivity |].
    simpl in Ha, Hb.
    apply andb_true_iff in Ha as [Hx Ha]. apply andb_true_iff in Hb as [Hy Hb].
    destruct (Hop x y Hx Hy) as [z [Ez Hz]].
    destruct (IH b Ha Hb) as [r [Er Hr]].
    exists (z :: r). rewrite Ez. simpl. rewrite Er. simpl. rewrite Hz, Hr.
    split; reflexivity.
Qed.

Lemma series_scalar_numbers op a k :
  (forall x, is_number x = true ->
             exists z, op x k = inr z /\ is_number z = true) ->
  forallb is_number a = true ->
  exists r, series_scalar op a k = inr r /\ forallb is_number r = true.
Proof.
  intros Hop. unfold series_scalar.
  induction a as [| x a IH]; intros Ha; simpl.
  - exists []. split; reflexivity.
  - simpl in Ha. apply andb_true_iff in Ha as [Hx Ha].
    destruct (Hop x Hx) as [z [Ez Hz]].
    destruct (IH Ha) as [r [Er Hr]].
    exists (z :: r). rewrite Ez. simpl. rewrite Er. simpl. rewrite Hz, Hr.
    split; reflexivity.
Qed.

Lemma cell_add_numbers x y :
  is_number x = true -> is_number y = true ->
  exists z, cell_add x y = inr z /\ is_number z = true.
Proof.
  destruct x, y; simpl; try discriminate; intros _ _; eexists; split; reflexivity.
Qed.

Lemma cell_mul_numbers x y :
  is_number x = true -> is_number y = true ->
  exists z, cell_mul x y = inr z /\ is_number z = true.
Proof.
  destruct x, y; simpl; try discriminate; intros _ _; eexists; split; reflexivity.
Qed.

Lemma cell_div_numbers x y :
  is_number x = true -> is_number y = true ->
  exists z, cell_div x y = inr z /\ is_number z = true.
Proof.
  destruct x, y; simpl; try discriminate; intros _ _; eexists; split; reflexivity.
Qed.

Lemma all_text_texts s :
  forallb is_text s = true -> exists l, all_text s = Some l.
Proof.
  induction s as [| c s IH]; simpl; [eauto |].
  destruct c; simpl; try discriminate.
  intros H. destruct (IH H) as [l E]. rewrite E. simpl. eauto.
Qed.

Lemma fit_transform_texts s :
  forallb is_text s = true -> exists r, fit_transform s = inr r.
Proof.
  intros H. destruct (all_text_texts s H) as [l E].
  unfold fit_transform, uniform_labels. rewrite E. simpl.
  destruct (encode_total String.compare string_compare_refl l) as [codes [Ec _]].
  rewrite Ec. eauto.
Qed.

Lemma series_op_numbers_inv op a b r :
  (forall x y, is_number x = true -> is_number y = true ->
               exists z, op x y = inr z /\ is_number z = true) ->
  forallb is_number a = true -> forallb is_number b = true ->
  series_op op a b = inr r -> forallb is_number r = true.
Proof.
  intros Hop Ha Hb E.
  destruct (series_op_numbers op a b Hop Ha Hb) as [r' [E' Hr]].
  congruence.
Qed.

Lemma series_op_numbers_ok op a b e :
  (forall x y, is_number x = true -> is_number y = true ->
               exists z, op x y = inr z /\ is_number z = true) ->
  forallb is_number a = true -> forallb is_number b = true ->
  series_op op a b = inl e -> False.
Proof.
  intros Hop Ha Hb E.
  destruct (series_op_numbers op a b Hop Ha Hb) as [r' [E' Hr]].
  congruence.
Qed.

Lemma tenure_plus_one_numbers a :
  forallb is_number a = true ->
  exists r, series_scalar cell_add a (CInt 1) = inr r
            /\ forallb is_number r = true.
Proof.
  apply series_scalar_numbers. intros x Hx.
  apply cell_add_numbers; [exact Hx | reflexivity].
Qed.

(** Reading a required column: either it is the first missing one, or the
    computation goes on with its cells. *)
Ltac read_column col :=
  repeat rewrite df_get_set_ne by reflexivity;
  first
    [ match goal with
      | E : df_get ?df col = inr _ |- _ => rewrite E; cbn [bind]
      end
    | let e := fresh "e" in
      let s := fresh "s" in
      let E := fresh "E" in
      match goal with
      | |- context [df_get ?df col] =>
          destruct (df_get df col) as [e | s] eqn:E; cbn [negb bind];
          [ let H := fresh in
            intros H; injection H as <-; exists e;
            split; [reflexivity | intros _; exact (df_get_error _ _ _ E)]
          | ]
      end ].

(** A computation on columns already read: where it raises, the columns
    were not well typed. *)
Ltac split_typing H :=
  repeat match type of H with
         | (_ && _) = true =>
             let H1 := fresh "T" in
             apply andb_true_iff in H; destruct H as [H1 H];
             try split_typing H1
         end.

Ltac compute_column :=
  let e := fresh "e" in
  let s := fresh "s" in
  let E := fresh "E" in
  match goal with
  | |- context [bind ?m _] =>
      destruct m as [e | s] eqn:E; cbn [bind];
      [ intros _; exists e; split; [reflexivity |];
        let Hwt := fresh "Hwt" in intros Hwt; exfalso; split_typing Hwt | ]
  end.

Lemma plus_one_numbers_inv a r :
  forallb is_number a = true ->
  series_scalar cell_add a (CInt 1) = inr r -> forallb is_number r = true.
Proof.
  intros Ha E. destruct (tenure_plus_one_numbers a Ha) as [r' [E' Hr]].
  congruence.
Qed.

Ltac numbers :=
  repeat match goal with
    | E : series_scalar cell_add ?a (CInt 1) = inr ?r,
      H : forallb is_number ?a = true |- _ =>
        lazymatch goal with
        | _ : forallb is_number r = true |- _ => fail
        | _ => pose proof (plus_one_numbers_inv a r H E)
        end
    | E : series_op cell_add ?a ?b = inr ?r,
      Ha : forallb is_number ?a = true,
      Hb : forallb is_number ?b = true |- _ =>
        lazymatch goal with
        | _ : forallb is_number r = true |- _ => fail
        | _ => pose proof (series_op_numbers_inv cell_add a b r
                             cell_add_numbers Ha Hb E)
        end
    end.

Ltac ill_typed :=
  numbers;
  match goal with
  | E : series_scalar cell_add ?a (CInt 1) = inl _,
    H : forallb is_number ?a = true |- _ =>
      destruct (tenure_plus_one_numbers a H) as [? [? _]]; congruence
  | E : series_op cell_add ?a ?b = inl ?e,
    Ha : forallb is_number ?a = true,
    Hb : forallb is_number ?b = true |- _ =>
      exact (series_op_numbers_ok cell_add a b e cell_add_numbers Ha Hb E)
  | E : series_op cell_mul ?a ?b = inl ?e,
    Ha : forallb is_number ?a = true,
    Hb : forallb is_number ?b = true |- _ =>
      exact (series_op_numbers_ok cell_mul a b e cell_mul_numbers Ha Hb E)
  | E : series_op cell_div ?a ?b = inl ?e,
    Ha : forallb is_number ?a = true,
    Hb : forallb is_number ?b = true |- _ =>
      exact (series_op_numbers_ok cell_div a b e cell_div_numbers Ha Hb E)
  | E : fit_transform ?a = inl _,
    H : forallb is_text ?a = true |- _ =>
      destruct (fit_transform_texts a H) as [? ?]; congruence
  end.

Lemma batch_features_missing df c :
  first_missing df = Some c ->
  exists e, batch_features df = inl e /\
            (well_typed df = true -> e = KeyError c).
Proof.
  unfold first_missing, reading_order, well_typed, has_column, column_all,
    batch_features.
  cbn [List.find forallb].
  read_column "total_charges".
  read_column "tenure".
  compute_column; [ill_typed |].
  compute_column; [ill_typed |].
  read_column "monthly_charges".
  read_column "tenure".
  compute_column; [ill_typed |].
  read_column "streaming_tv".
  read_column "streaming_movies".
  compute_column; [ill_typed |].
  read_column "tech_support".
  compute_column; [ill_typed |].
  read_column "online_security".
  compute_column; [ill_typed |].
  read_column "contract_type".
  compute_column; [ill_typed |].
  read_column "payment_method".
  compute_column; [ill_typed |].
  read_column "internet_service".
  intros H. discriminate H.
Qed.

Lemma required_in_reading_order col :
  In col required_columns <-> In col reading_order.
Proof. unfold required_columns, reading_order. simpl. tauto. Qed.

Lemma first_missing_exists df col :
  In col required_columns -> has_column df col = false ->
  exists c, first_missing df = Some c /\ In c required_columns
            /\ has_column df c = false.
Proof.
  intros Hin Hcol. unfold first_missing.
  destruct (List.find (fun col => negb (has_column df col)) reading_order)
    as [c |] eqn:E.
  - apply find_some in E. destruct E as [Hc Hneg].
    exists c. split; [reflexivity |].
    split; [apply required_in_reading_order; exact Hc |].
    apply negb_true_iff. exact Hneg.
  - exfalso.
    pose proof (find_none _ _ E col
                  (proj1 (required_in_reading_order col) Hin)) as H.
    simpl in H. rewrite Hcol in H. discriminate H.
Qed.

(** With tenure and total_charges both missing, the message is
    ['total_charges'] alone: a required column is missing that the message
    does not name. *)
Lemma C9_only_first_missing_column_named :
  has_column without_tenure_and_total "tenure" = false /\
  has_column without_tenure_and_total "total_charges" = false /\
  api_batch_predict (Some (constant_classifier [])) without_tenure_and_total
    = Failure 400 "'total_charges'" /\
  mentions "'total_charges'" "tenure" = false.
Proof. repeat split; vm_compute; reflexivity. Qed.

(** C9 (amended): with the model loaded, a batch upload that lacks at
    least one required column fails as a whole with status 400 and returns
    no rows; when the columns that are present hold numbers (numeric and
    flag fields) and text (categorical fields), the message is the quoted
    name of the first missing column in the order the columns are read
    (total_charges, tenure, monthly_charges, the four flags, contract_type,
    payment_method, internet_service); the three-row table without its
    tenure column fails with the message 'tenure'. *)
Theorem C9_missing_column_fails_batch
  (clf : DataFrame -> result (list Q)) (df : DataFrame) (col : string) :
  In col required_columns ->
  has_column df col = false ->
  exists c,
    first_missing df = Some c /\
    In c required_columns /\ has_column df c = false /\
    (exists msg, api_batch_predict (Some clf) df = Failure 400 msg) /\
    (well_typed df = true ->
     api_batch_predict (Some clf) df = Failure 400 (repr c)) /\
    api_batch_predict (Some clf) without_tenure = Failure 400 "'tenure'".
Proof.
  intros Hin Hcol.
  destruct (first_missing_exists df col Hin Hcol) as [c [Hc [Hreq Hmiss]]].
  exists c. split; [exact Hc |]. split; [exact Hreq |].
  split; [exact Hmiss |].
  destruct (batch_features_missing df c Hc) as [e [Ee He]].
  assert (Hfail : api_batch_predict (Some clf) df = Failure 400 (str_exn e)).
  { unfold api_batch_predict, batch_body. rewrite Ee. reflexivity. }
  split; [eexists; exact Hfail |].
  split; [| reflexivity].
  intros Hwt. rewrite Hfail, (He Hwt). reflexivity.
Qed.

Lemma C9_missing_column_fails_batch_witness :
  api_batch_predict (Some (constant_classifier [])) without_tenure
  = Failure 400 (repr "tenure").
Proof.
  destruct (C9_missing_column_fails_batch (constant_classifier [])
              without_tenure "tenure")
    as [c [Hc [_ [_ [_ [Hnamed _]]]]]].
  - simpl. tauto.
  - reflexivity.
  - vm_compute in Hc. injection Hc as <-.
    apply Hnamed. reflexivity.
Defined.

(** * Further properties of the endpoints, the accounts and the tables *)

(** ** Failures and answers of the single-record endpoint *)

Section ApiPredictFacts.
Variable float_of_str : string -> option Q.
Variable int_of_str : string -> option Z.
Variable model : option (DataFrame -> result (list Q)).
Variable DB : Type.
Variable db_insert : prediction_row -> DB -> result DB.
Variable current_user_id : Z.

Lemma py_float_error v e :
  py_float float_of_str v = inl e ->
  (exists m, e = ValueError m) \/ (exists m, e = TypeError m).
Proof.
  destruct v; simpl; try discriminate.
  - intros H. injection H as <-. right. eauto.
  - destruct (float_of_str s); [discriminate |].
    intros H. injection H as <-. left. eauto.
Qed.

Lemma py_int_error v e :
  py_int int_of_str v = inl e ->
  (exists m, e = ValueError m) \/ (exists m, e = TypeError m).
Proof.
  destruct v; simpl; try discriminate.
  - intros H. injection H as <-. right. eauto.
  - destruct (int_of_str s); [discriminate |].
    intros H. injection H as <-. left. eauto.
Qed.

Lemma extract_error data e :
  extract float_of_str int_of_str data = inl e ->
  (exists m, e = ValueError m) \/ (exists m, e = TypeError m).
Proof.
  unfold extract.
  repeat match goal with
    | |- context [bind (py_float float_of_str ?v) _] =>
        let E := fresh "E" in
        destruct (py_float float_of_str v) eqn:E; cbn [bind];
        [ intros H; injection H as <-; exact (py_float_error _ _ E) | ]
    | |- context [bind (py_int int_of_str ?v) _] =>
        let E := fresh "E" in
        destruct (py_int int_of_str v) eqn:E; cbn [bind];
        [ intros H; injection H as <-; exact (py_int_error _ _ E) | ]
    end.
  discriminate.
Qed.

(** X1: When one of the numeric fields or flags of a single-record payload
    cannot be coerced (float() or int() raises ValueError or TypeError),
    api_predict answers status 400 with the message 'Invalid input data: '
    followed by the exception text, whatever the classifier would say, and
    stores nothing in the database. *)
Theorem invalid_input_rejected (clf : DataFrame -> result (list Q)) db data e :
  extract float_of_str int_of_str data = inl e ->
  api_predict float_of_str int_of_str (Some clf) DB db_insert current_user_id db data
  = (Failure 400 ("Invalid input data: " ++ str_exn e), db).
Proof.
  intros H. unfold api_predict. rewrite H.
  destruct (extract_error data e H) as [[m ->] | [m ->]]; reflexivity.
Qed.

(** X2: Every call of api_predict either answers a successful prediction, or
    leaves the database exactly as it was and answers a failure whose status
    is 400 or 500. *)
Theorem api_predict_writes_only_on_success db data :
  let answer :=
    api_predict float_of_str int_of_str model DB db_insert
      current_user_id db data in
  (exists p, fst answer = Predicted p) \/
  (snd answer = db /\
   exists msg, fst answer = Failure 400 msg \/ fst answer = Failure 500 msg).
Proof.
  intros answer. subst answer. unfold api_predict.
  destruct model as [clf |]; [| right; split; [reflexivity | eauto]].
  destruct (extract float_of_str int_of_str data) as [e | c].
  { right. destruct e; (split; [reflexivity | eauto]). }
  destruct (single_features c) as [e | X];
    [right; split; [reflexivity | eauto] |].
  destruct (predict_one clf X) as [e | p];
    [right; split; [reflexivity | eauto] |].
  left. eauto.
Qed.

(** X3: In every successful single-record response the binary prediction is
    0 or 1, a prediction of 1 never comes with risk level Low, risk level
    High always comes with prediction 1 and Low with prediction 0, and the
    colour is the one of the level (green, orange, red). *)
Theorem prediction_agrees_with_tier db data (r : prediction) :
  fst (api_predict float_of_str int_of_str model DB db_insert
         current_user_id db data) = Predicted r ->
  (churn_prediction r = 1 \/ churn_prediction r = 0) /\
  (churn_prediction r = 1 ->
   risk_level r = "Medium" \/ risk_level r = "High") /\
  (risk_level r = "High" -> churn_prediction r = 1) /\
  (risk_level r = "Low" -> churn_prediction r = 0) /\
  ((risk_level r = "Low" /\ color r = "green") \/
   (risk_level r = "Medium" /\ color r = "orange") \/
   (risk_level r = "High" /\ color r = "red")).
Proof.
  unfold api_predict.
  destruct model as [clf |]; [| discriminate].
  destruct (extract float_of_str int_of_str data) as [e | c];
    [destruct e; discriminate |].
  destruct (single_features c) as [e | X]; [discriminate |].
  destruct (predict_one clf X) as [e | p]; [discriminate |].
  cbn [fst]. intros H. injection H as <-.
  unfold respond, determine_risk_level.
  destruct (Qltb (1 # 2) p) eqn:Hhalf;
    [apply Qltb_lt in Hhalf | apply Qltb_ge in Hhalf];
    (destruct (Qltb p (3 # 10)) eqn:H3;
     [apply Qltb_lt in H3 | apply Qltb_ge in H3;
      destruct (Qltb p (7 # 10)) eqn:H7;
      [apply Qltb_lt in H7 | apply Qltb_ge in H7]]);
    cbn [churn_prediction risk_level color Z.b2z];
    try (exfalso; lra);
    repeat split; intros; try discriminate; auto.
Qed.

(** X4: The +1 guard does not cover a tenure of -1: a payload whose fields
    coerce and whose tenure is -1 makes total_charges/(tenure+1) raise, so
    api_predict answers status 400 without consulting the classifier and
    stores nothing. *)
Theorem tenure_minus_one_rejected
  (clf : DataFrame -> result (list Q)) db data c :
  extract float_of_str int_of_str data = inr c ->
  (tenure c == -1)%Q ->
  exists msg,
    api_predict float_of_str int_of_str (Some clf) DB db_insert
      current_user_id db data = (Failure 400 msg, db).
Proof.
  intros Hc Ht. unfold api_predict. rewrite Hc.
  unfold single_features, py_div.
  assert (E : Qeq_bool (tenure c + 1) 0 = true).
  { apply Qeq_bool_iff. rewrite Ht. reflexivity. }
  rewrite E. cbn [bind raise]. eauto.
Qed.

End ApiPredictFacts.

(** X5: get_recommendations always returns between 3 and 5 lines without
    repetition: the first three are one of the three generic blocks, and
    whatever follows is the annual-contract line or the tech-support line. *)
Theorem recommendations_shape (p : Q) (data : payload) :
  let recs := get_recommendations p data in
  (3 <= length recs <= 5)%nat /\
  (firstn 3 recs = high_advice \/ firstn 3 recs = medium_advice
   \/ firstn 3 recs = low_advice) /\
  Forall (fun line => line = annual_contract_advice
                      \/ line = tech_support_advice) (skipn 3 recs) /\
  List.NoDup recs.
Proof.
  unfold get_recommendations.
  destruct (Qltb (7 # 10) p); [| destruct (Qltb (4 # 10) p)];
    destruct (py_eq (get data "contract_type") (JStr "Month-to-Month"));
    destruct (py_eq (get data "tech_support") (JNum 0));
    cbn [app high_advice medium_advice low_advice length firstn skipn];
    (split; [lia |]); (split; [tauto |]);
    (split; [repeat constructor; tauto |]);
    repeat (constructor; [simpl; intuition discriminate |]); constructor.
Qed.

(** ** The answer of the batch endpoint *)

Lemma df_set_array_inv df col values df' :
  df_set_array df col values = inr df' ->
  length values = df_len df /\ df' = df_set df col values.
Proof.
  unfold df_set_array.
  destruct (Nat.eqb (length values) (df_len df)) eqn:E; [| discriminate].
  apply Nat.eqb_eq in E. intros H. injection H as <-. auto.
Qed.

Lemma df_len_set df col values :
  length values = df_len df -> df_len (df_set df col values) = df_len df.
Proof.
  destruct df as [| [name old] df]; simpl; [auto |].
  destruct (String.eqb name col); simpl; auto.
Qed.

Lemma df_columns_set_new df col values :
  In col (df_columns (df_set df col values)).
Proof.
  induction df as [| [name old] df IH]; simpl; [auto |].
  destruct (String.eqb name col) eqn:E; simpl; [| auto].
  apply String.eqb_eq in E. auto.
Qed.

Lemma df_columns_set_old df col values c :
  In c (df_columns df) -> In c (df_columns (df_set df col values)).
Proof.
  induction df as [| [name old] df IH]; simpl; [tauto |].
  destruct (String.eqb name col); simpl; tauto.
Qed.

Lemma rectangular_len n df c :
  rectangular n df -> In c (df_columns df) -> df_len df = n.
Proof.
  intros Hdf Hc. destruct Hdf as [| [name s] df Hs _]; [contradiction |].
  exact Hs.
Qed.

Lemma rectangular_set n df col values :
  rectangular n df -> length values = n ->
  rectangular n (df_set df col values).
Proof.
  intros Hdf Hv. induction Hdf as [| [name old] df Hc Hdf IH]; simpl.
  - repeat constructor. exact Hv.
  - destruct (String.eqb name col); constructor; auto.
Qed.

Lemma rectangular_get n df col s :
  rectangular n df -> df_get df col = inr s -> length s = n.
Proof.
  intros Hdf. induction Hdf as [| [name old] df Hc Hdf IH]; simpl;
    [discriminate |].
  destruct (String.eqb name col); [| exact IH].
  intros H. injection H as <-. exact Hc.
Qed.

Lemma traverse_length {A B} (f : A -> result B) l r :
  traverse f l = inr r -> length r = length l.
Proof.
  revert r. induction l as [| a l IH]; simpl; intros r H.
  - injection H as <-. reflexivity.
  - destruct (f a); [discriminate |]. cbn [bind] in H.
    destruct (traverse f l) as [| bs]; [discriminate |]. cbn [bind ret] in H.
    injection H as <-. simpl. f_equal. apply IH. reflexivity.
Qed.

Lemma series_op_length op a b r :
  series_op op a b = inr r -> length a = length b -> length r = length a.
Proof.
  revert b r. induction a as [| x a IH]; intros [| y b] r; simpl;
    try discriminate.
  - intros H _. injection H as <-. reflexivity.
  - intros H L. destruct (op x y); [discriminate |]. cbn [bind] in H.
    destruct (series_op op a b) as [| zs] eqn:E; [discriminate |].
    cbn [bind ret] in H. injection H as <-. simpl. f_equal.
    apply (IH b); [exact E | lia].
Qed.

Lemma all_text_length y l : all_text y = Some l -> length l = length y.
Proof.
  revert l. induction y as [| c y IH]; simpl; intros l H.
  - injection H as <-. reflexivity.
  - destruct c; try discriminate.
    destruct (all_text y) as [l' |]; [| discriminate].
    simpl in H. injection H as <-. simpl. f_equal. apply IH. reflexivity.
Qed.

Lemma all_numbers_length y l : all_numbers y = Some l -> length l = length y.
Proof.
  revert l. induction y as [| c y IH]; simpl; intros l H.
  - injection H as <-. reflexivity.
  - destruct (as_float c); [| discriminate].
    destruct (all_numbers y) as [l' |]; [| discriminate].
    injection H as <-. simpl. f_equal. apply IH. reflexivity.
Qed.

Lemma fit_transform_length y r :
  fit_transform y = inr r -> length r = length y.
Proof.
  unfold fit_transform, uniform_labels, encode.
  destruct (all_text y) as [l |] eqn:Et.
  - cbn [bind ret]. intros H. apply traverse_length in H.
    rewrite H. apply all_text_length. exact Et.
  - destruct (all_numbers y) as [l |] eqn:En; [| discriminate].
    cbn [bind ret]. intros H. apply traverse_length in H.
    rewrite H. apply all_numbers_length. exact En.
Qed.

Lemma df_select_columns df cols out :
  df_select df cols = inr out -> df_columns out = cols.
Proof.
  unfold df_select, df_columns. revert out.
  induction cols as [| c cols IH]; simpl; intros out H.
  - injection H as <-. reflexivity.
  - destruct (df_get df c); [discriminate |]. cbn [bind ret] in H.
    destruct (traverse _ cols) as [| rest]; [discriminate |].
    cbn [bind ret] in H. injection H as <-. simpl. f_equal.
    apply IH. reflexivity.
Qed.

Lemma df_select_rectangular n df cols out :
  rectangular n df -> df_select df cols = inr out -> rectangular n out.
Proof.
  intros Hdf. unfold df_select. revert out.
  induction cols as [| c cols IH]; simpl; intros out H.
  - injection H as <-. constructor.
  - destruct (df_get df c) as [| s] eqn:E; [discriminate |].
    cbn [bind ret] in H.
    destruct (traverse _ cols) as [| rest]; [discriminate |].
    cbn [bind ret] in H. injection H as <-. constructor.
    + simpl. eapply rectangular_get; eauto.
    + apply IH. reflexivity.
Qed.

Lemma In_firstn {A} (n : nat) (l : list A) (x : A) :
  In x (firstn n l) -> In x l.
Proof.
  revert l. induction n as [| n IH]; intros [| a l]; simpl; try tauto.
  intros [H | H]; [auto | right; apply IH; exact H].
Qed.

Lemma count_partition (l : list Q) :
  (count_if (fun p => Qltb (7 # 10) p) l
   + count_if (fun p => Qle_bool (3 # 10) p && Qle_bool p (7 # 10)) l
   + count_if (fun p => Qltb p (3 # 10)) l)%nat = length l.
Proof.
  unfold count_if. induction l as [| p l IH]; simpl; [reflexivity |].
  destruct (Qltb (7 # 10) p) eqn:H7; destruct (Qltb p (3 # 10)) eqn:H3;
    destruct (Qle_bool (3 # 10) p) eqn:L3; destruct (Qle_bool p (7 # 10)) eqn:L7;
    simpl; try lia; exfalso;
    try apply Qltb_lt in H7; try apply Qltb_ge in H7;
    try apply Qltb_lt in H3; try apply Qltb_ge in H3;
    try apply Qle_bool_iff in L3; try apply Qle_bool_iff in L7;
    try (apply not_true_iff_false in L3; apply L3; apply Qle_bool_iff);
    try (apply not_true_iff_false in L7; apply L7; apply Qle_bool_iff);
    lra.
Qed.

Lemma series_op_len n op a b r :
  series_op op a b = inr r -> length a = n -> length b = n -> length r = n.
Proof.
  intros H Ha Hb. rewrite (series_op_length op a b r H); congruence.
Qed.

Lemma series_scalar_len n op a k r :
  series_scalar op a k = inr r -> length a = n -> length r = n.
Proof.
  unfold series_scalar. intros H Ha. apply traverse_length in H. congruence.
Qed.

Lemma fit_transform_len n y r :
  fit_transform y = inr r -> length y = n -> length r = n.
Proof. intros H Hy. apply fit_transform_length in H. congruence. Qed.

Ltac frame_is_rectangular :=
  repeat (apply rectangular_set; [| assumption]); assumption.

Ltac note_length n :=
  match goal with
  | E : df_get ?d ?c = inr ?s |- _ =>
      lazymatch goal with
      | _ : length s = n |- _ => fail
      | _ => assert (length s = n)
               by (eapply rectangular_get; [| exact E]; frame_is_rectangular)
      end
  | E : series_op ?op ?a ?b = inr ?r |- _ =>
      lazymatch goal with
      | _ : length r = n |- _ => fail
      | _ => assert (length r = n)
               by (eapply series_op_len; [exact E | assumption | assumption])
      end
  | E : series_scalar ?op ?a ?k = inr ?r |- _ =>
      lazymatch goal with
      | _ : length r = n |- _ => fail
      | _ => assert (length r = n)
               by (eapply series_scalar_len; [exact E | assumption])
      end
  | E : fit_transform ?a = inr ?r |- _ =>
      lazymatch goal with
      | _ : length r = n |- _ => fail
      | _ => assert (length r = n)
               by (eapply fit_transform_len; [exact E | assumption])
      end
  end.

Ltac open_binds H :=
  repeat match type of H with
    | context [bind ?m _] =>
        let E := fresh "E" in
        destruct m eqn:E; [discriminate H |]; cbn [bind] in H
    end.

Lemma batch_features_rectangular n df df' X :
  rectangular n df -> batch_features df = inr (df', X) ->
  rectangular n df'.
Proof.
  intros Hrect H. unfold batch_features in H.
  open_binds H. cbn [ret] in H. injection H as <- <-.
  repeat note_length n.
  frame_is_rectangular.
Qed.

Lemma batch_features_nonempty df df' X :
  batch_features df = inr (df', X) ->
  In "internet_encoded" (df_columns df').
Proof.
  intros H. unfold batch_features in H.
  open_binds H. cbn [ret] in H. injection H as <- <-.
  apply df_columns_set_new.
Qed.

Section BatchFacts.
Variable clf : DataFrame -> result (list Q).

Lemma batch_success_inv df s results :
  api_batch_predict (Some clf) df = BatchPredicted s results ->
  exists df1 X predictions df4 out,
    batch_features df = inr (df1, X) /\
    clf X = inr predictions /\
    length predictions = df_len df1 /\
    df4 = df_set (df_set (df_set df1 "churn_probability"
                            (map (fun p => CFloat (Fin p)) predictions))
                    "churn_prediction"
                    (map (fun p => CInt (Z.b2z (Qltb (1 # 2) p))) predictions))
            "risk_level"
            (map (fun p => category_cell (batch_risk_level p)) predictions) /\
    df_len df4 = df_len df1 /\
    s = summarize (df_len df4) predictions /\
    df_select df4 (output_columns df4) = inr out /\
    results = firstn 100 (to_dict_records out).
Proof.
  unfold api_batch_predict, batch_body. intros H.
  destruct (batch_features df) as [e | [df1 X]] eqn:E1; [discriminate H |].
  cbn [bind] in H.
  destruct (clf X) as [e | predictions] eqn:E2; [discriminate H |].
  cbn [bind] in H.
  destruct (df_set_array df1 _ _) as [e | df2] eqn:E3; [discriminate H |].
  cbn [bind] in H.
  destruct (df_set_array df2 _ _) as [e | df3] eqn:E4; [discriminate H |].
  cbn [bind] in H.
  destruct (df_set_array df3 _ _) as [e | df4] eqn:E5; [discriminate H |].
  cbn [bind] in H.
  destruct (df_select df4 _) as [e | out] eqn:E6; [discriminate H |].
  cbn [bind ret] in H. injection H as <- <-.
  apply df_set_array_inv in E3 as [L3 ->].
  apply df_set_array_inv in E4 as [L4 ->].
  apply df_set_array_inv in E5 as [L5 ->].
  rewrite length_map in L3.
  exists df1, X, predictions. eexists. exists out.
  split; [reflexivity |]. split; [exact E2 |]. split; [exact L3 |].
  split; [reflexivity |].
  split.
  { rewrite df_len_set by exact L5. rewrite df_len_set by exact L4.
    apply df_len_set. rewrite length_map. exact L3. }
  split; [reflexivity |]. split; [exact E6 | reflexivity].
Qed.

(** X6: In every successful batch response the three summary counts add up
    to the total: low_risk + medium_risk + high_risk = total_customers, so
    the summary counts every row exactly once (even rows such as p = 0 that
    get no risk_level label). *)
Theorem batch_summary_partitions df s results :
  api_batch_predict (Some clf) df = BatchPredicted s results ->
  (low_risk s + medium_risk s + high_risk s)%nat = total_customers s.
Proof.
  intros H.
  destruct (batch_success_inv df s results H)
    as [df1 [X [preds [df4 [out [_ [_ [L [_ [L4 [-> _]]]]]]]]]]].
  unfold summarize. cbn [low_risk medium_risk high_risk total_customers].
  rewrite L4, <- L. rewrite <- (count_partition preds). lia.
Qed.

(** X7: Every record of a successful batch response has no key ending in
    '_encoded' and has the keys churn_probability, churn_prediction and
    risk_level. *)
Theorem batch_results_hide_encodings df s results row :
  api_batch_predict (Some clf) df = BatchPredicted s results ->
  In row results ->
  Forall (fun key => endswith key "_encoded" = false) (map fst row) /\
  In "churn_probability" (map fst row) /\
  In "churn_prediction" (map fst row) /\
  In "risk_level" (map fst row).
Proof.
  intros H Hrow.
  destruct (batch_success_inv df s results H)
    as [df1 [X [preds [df4 [out [_ [_ [_ [Hdf4 [_ [_ [Hout ->]]]]]]]]]]]].
  assert (Hkeys : map fst row = output_columns df4).
  { apply df_select_columns in Hout. rewrite <- Hout.
    assert (Hin : In row (to_dict_records out))
      by (apply In_firstn in Hrow; exact Hrow).
    unfold to_dict_records in Hin. apply in_map_iff in Hin as [i [<- _]].
    unfold df_row, df_columns. rewrite map_map.
    apply map_ext. intros [name col]. reflexivity. }
  rewrite Hkeys. unfold output_columns.
  split.
  { apply Forall_forall. intros key Hkey.
    apply list_elem_of_In in Hkey.
    apply filter_In in Hkey as [_ Hkey]. apply negb_true_iff. exact Hkey. }
  subst df4.
  repeat split; apply filter_In; (split; [| reflexivity]).
  - do 2 apply df_columns_set_old. apply df_columns_set_new.
  - apply df_columns_set_old. apply df_columns_set_new.
  - apply df_columns_set_new.
Qed.

(** X8: For an uploaded table of n rows (every column n cells long), a
    successful batch response reports total_customers = n in the summary and
    returns min(100, n) records: the cap applies to the records only. *)
Theorem batch_results_capped df s results :
  rectangular (df_len df) df ->
  api_batch_predict (Some clf) df = BatchPredicted s results ->
  total_customers s = df_len df /\
  length results = Nat.min 100 (df_len df).
Proof.
  intros Hrect H.
  destruct (batch_success_inv df s results H)
    as [df1 [X [preds [df4 [out [E1 [_ [L [Hdf4 [L4 [-> [Hout ->]]]]]]]]]]]].
  cbn [summarize total_customers].
  pose proof (batch_features_rectangular _ _ _ _ Hrect E1) as R1.
  assert (L1 : df_len df1 = df_len df).
  { eapply rectangular_len; [exact R1 |].
    eapply batch_features_nonempty. exact E1. }
  assert (R4 : rectangular (df_len df) df4).
  { subst df4. repeat apply rectangular_set; try exact R1;
      rewrite length_map; congruence. }
  assert (Lout : df_len out = df_len df).
  { eapply rectangular_len.
    - eapply df_select_rectangular; [exact R4 | exact Hout].
    - rewrite (df_select_columns _ _ _ Hout). unfold output_columns.
      apply (proj2 (filter_In _ "risk_level" _)). split; [| reflexivity].
      subst df4. apply df_columns_set_new. }
  split; [congruence |].
  rewrite length_firstn. unfold to_dict_records.
  rewrite length_map, length_seq, Lout. reflexivity.
Qed.
End BatchFacts.

(** ** Training and batch scoring derive the same features *)

Lemma df_get_set_eq df col s : df_get (df_set df col s) col = inr s.
Proof.
  induction df as [| [name old] df IH]; simpl.
  - rewrite String.eqb_refl. reflexivity.
  - destruct (String.eqb name col) eqn:E; simpl; rewrite E; [reflexivity | exact IH].
Qed.

Ltac lookup_frames :=
  repeat first [ rewrite df_get_set_eq
               | rewrite df_get_set_ne by reflexivity ].

Ltac lookup_frames_in H :=
  repeat first [ rewrite df_get_set_eq in H
               | rewrite df_get_set_ne in H by reflexivity ].

(** X9: Whenever the batch feature derivation succeeds on a table,
    preprocess_data on the same table produces the identical feature frame X
    (same 13 columns, same values, same codes), and fails only if the churn
    column is missing. *)
Theorem training_matches_batch_features df df' X :
  batch_features df = inr (df', X) ->
  preprocess_data df
  = (try! y := df_get df "churn" in ret (X, y, feature_cols)).
Proof.
  intros H. unfold batch_features in H. unfold preprocess_data.
  repeat (lookup_frames_in H;
          match type of H with
          | context [bind ?m _] =>
              lazymatch m with
              | df_select _ _ => fail
              | _ => let E := fresh "E" in
                     destruct m eqn:E; [discriminate H |]; cbn [bind] in H
              end
          end).
  repeat match goal with
         | E : inr _ = inr _ |- _ => injection E as <-
         end.
  unfold df_select, feature_cols in *.
  cbn [traverse] in *.
  lookup_frames_in H. lookup_frames.
  repeat match goal with
         | E : df_get df ?c = inr _ |- _ =>
             first [ rewrite E in H | rewrite E ]
         end.
  cbn [bind ret] in H. injection H as <- <-.
  repeat (cbn [bind ret];
          match goal with
          | |- bind (df_get _ _) _ = _ => lookup_frames
          | |- _ => idtac
          end;
          match goal with
          | E : ?m = inr _ |- bind ?m _ = _ => rewrite E
          end).
  cbn [bind ret]. lookup_frames.
  repeat match goal with
         | E : df_get df ?c = inr _ |- _ => rewrite E
         end.
  reflexivity.
Qed.

(** ** Codes fitted on the table *)

Lemma traverse_Forall2 {A B} (f : A -> result B) l r :
  traverse f l = inr r -> Forall2 (fun a b => f a = inr b) l r.
Proof.
  revert r. induction l as [| a l IH]; simpl; intros r H.
  - injection H as <-. constructor.
  - destruct (f a) as [| b] eqn:E; [discriminate |]. cbn [bind] in H.
    destruct (traverse f l) as [| bs]; [discriminate |]. cbn [bind ret] in H.
    injection H as <-. constructor; [exact E | apply IH; reflexivity].
Qed.

Lemma index_of_sound (x : string) l k :
  index_of String.compare x l = Some k -> nth_error l k = Some x.
Proof.
  revert k. induction l as [| h t IH]; simpl; intros k H; [discriminate |].
  destruct (String.compare x h) eqn:E.
  - injection H as <-. apply String.compare_eq_iff in E. subst. reflexivity.
  - destruct (index_of String.compare x t); [| discriminate].
    injection H as <-. simpl. apply IH. reflexivity.
  - destruct (index_of String.compare x t); [| discriminate].
    injection H as <-. simpl. apply IH. reflexivity.
Qed.

Lemma fit_transform_codes (labels : list string) codes :
  fit_transform (map CStr labels) = inr codes ->
  Forall2 (fun l c =>
             exists k, index_of String.compare l
                         (np_unique String.compare labels) = Some k
                       /\ c = CInt (Z.of_nat k)) labels codes.
Proof.
  unfold fit_transform, uniform_labels.
  rewrite (all_text_map (fun s => s)), map_id. cbn [bind ret].
  unfold encode. intros H. apply traverse_Forall2 in H.
  eapply Forall2_impl; [exact H |].
  intros l c. simpl.
  destruct (index_of String.compare l (np_unique String.compare labels))
    as [k |]; [| discriminate].
  intros E. injection E as <-. eauto.
Qed.

Lemma fit_transform_distinguishes
  (labels : list string) (codes : Series) (i j : nat)
  (li lj : string) (ci cj : cell) :
  fit_transform (map CStr labels) = inr codes ->
  labels !! i = Some li -> labels !! j = Some lj ->
  codes !! i = Some ci -> codes !! j = Some cj ->
  (ci = cj <-> li = lj).
Proof.
  intros H Hli Hlj Hci Hcj.
  apply fit_transform_codes in H.
  destruct (Forall2_lookup_lr _ _ _ _ _ _ H Hli Hci) as [ki [Eki ->]].
  destruct (Forall2_lookup_lr _ _ _ _ _ _ H Hlj Hcj) as [kj [Ekj ->]].
  split.
  - intros E. injection E as E. apply Nat2Z.inj in E. subst kj.
    apply index_of_sound in Eki. apply index_of_sound in Ekj. congruence.
  - intros ->. congruence.
Qed.

Lemma np_unique_constant (v : string) (labels : list string) :
  labels <> [] -> Forall (eq v) labels ->
  np_unique String.compare labels = [v].
Proof.
  intros Hne Hall. induction Hall as [| l labels <- Hall IH];
    [contradiction |].
  simpl. destruct labels as [| l' labels'].
  - reflexivity.
  - rewrite IH by discriminate. simpl. rewrite string_compare_refl.
    reflexivity.
Qed.

Lemma fit_transform_constant (v : string) (labels : list string) :
  labels <> [] -> Forall (eq v) labels ->
  fit_transform (map CStr labels) = inr (map (fun _ => CInt 0) labels).
Proof.
  intros Hne Hall.
  unfold fit_transform, uniform_labels.
  rewrite (all_text_map (fun s => s)), map_id. cbn [bind ret].
  unfold encode. rewrite (np_unique_constant v labels Hne Hall).
  rewrite <- (map_id labels) at 1.
  apply (traverse_map _ (fun s : string => s) (fun _ => CInt 0)).
  eapply Forall_impl; [exact Hall |].
  intros l <-. simpl. rewrite string_compare_refl. reflexivity.
Qed.

Lemma fit_transform_matches_vocabulary
  (le : LabelEncoder) (labels : list string) (dflt : Z) :
  np_unique String.compare labels = classes_ le ->
  exists codes,
    fit_transform (map CStr labels) = inr (map CInt codes) /\
    Forall2 (fun l c => transform_or le (JStr l) dflt = inr c) labels codes.
Proof.
  intros Hcls.
  destruct (fit_transform_text (fun s : string => s) labels) as [codes [E L]].
  exists codes. split; [exact E |].
  apply fit_transform_codes in E. rewrite Hcls in E.
  apply Forall2_fmap_r in E.
  eapply Forall2_impl; [exact E |].
  intros l c [k [Ek Ec]]. injection Ec as ->.
  unfold transform_or, transform, traverse, transform_label.
  rewrite Ek. reflexivity.
Qed.

Lemma batch_encodes_with_fit_transform df df' X field encoded :
  batch_features df = inr (df', X) ->
  In (field, encoded) encoded_fields ->
  exists column,
    df_get df field = inr column /\
    df_get X encoded = fit_transform column.
Proof.
  intros H Hin. unfold batch_features in H.
  repeat (lookup_frames_in H;
          match type of H with
          | context [bind ?m _] =>
              lazymatch m with
              | df_select _ _ => fail
              | _ => let E := fresh "E" in
                     destruct m eqn:E; [discriminate H |]; cbn [bind] in H
              end
          end).
  repeat match goal with
         | E : inr _ = inr _ |- _ => injection E as <-
         end.
  unfold df_select, feature_cols in H. cbn [traverse] in H.
  lookup_frames_in H.
  repeat match goal with
         | E : df_get df ?c = inr _ |- _ => rewrite E in H
         end.
  cbn [bind ret] in H. injection H as <- <-.
  unfold encoded_fields in Hin. simpl in Hin.
  decompose [or] Hin; try contradiction;
    match goal with
    | E : (_, _) = (_, _) |- _ => injection E as <- <-
    end;
    eexists; (split; [eassumption |]); cbn; symmetry; assumption.
Qed.

(** X10: In the feature frame of a batch, for each of contract_type,
    payment_method and internet_service (text columns), two rows have the
    same code exactly when they have the same category. *)
Theorem batch_codes_distinguish_categories
  df df' X field encoded (labels : list string) (codes : Series)
  (i j : nat) (li lj : string) (ci cj : cell) :
  batch_features df = inr (df', X) ->
  In (field, encoded) encoded_fields ->
  df_get df field = inr (map CStr labels) ->
  df_get X encoded = inr codes ->
  labels !! i = Some li -> labels !! j = Some lj ->
  codes !! i = Some ci -> codes !! j = Some cj ->
  (ci = cj <-> li = lj).
Proof.
  intros H Hin Hcol Hcodes.
  destruct (batch_encodes_with_fit_transform _ _ _ _ _ H Hin)
    as [column [E1 E2]].
  rewrite Hcol in E1. injection E1 as <-. rewrite Hcodes in E2.
  symmetry in E2.
  apply (fit_transform_distinguishes labels codes); exact E2.
Qed.

(** X11: In a batch whose rows all share one value of a categorical field,
    that field is encoded as 0 on every row, whatever the value is (so the
    code differs from the single-record code whenever that one is not 0). *)
Theorem batch_single_category_encodes_zero
  df df' X field encoded (v : string) (labels : list string) :
  batch_features df = inr (df', X) ->
  In (field, encoded) encoded_fields ->
  df_get df field = inr (map CStr labels) ->
  labels <> [] -> Forall (eq v) labels ->
  df_get X encoded = inr (map (fun _ => CInt 0) labels).
Proof.
  intros H Hin Hcol Hne Hall.
  destruct (batch_encodes_with_fit_transform _ _ _ _ _ H Hin)
    as [column [E1 E2]].
  rewrite Hcol in E1. injection E1 as <-. rewrite E2.
  apply (fit_transform_constant v); assumption.
Qed.

(** X12: When the distinct values of a categorical column of the batch
    table, in ascending order, are exactly the classes of a single-record
    encoder, the batch codes of that column are the codes the single-record
    encoder gives row by row. *)
Theorem batch_codes_match_fitted_vocabulary
  df df' X field encoded (le : LabelEncoder) (labels : list string)
  (dflt : Z) :
  batch_features df = inr (df', X) ->
  In (field, encoded) encoded_fields ->
  df_get df field = inr (map CStr labels) ->
  np_unique String.compare labels = classes_ le ->
  exists codes,
    df_get X encoded = inr (map CInt codes) /\
    Forall2 (fun l c => transform_or le (JStr l) dflt = inr c) labels codes.
Proof.
  intros H Hin Hcol Hcls.
  destruct (batch_encodes_with_fit_transform _ _ _ _ _ H Hin)
    as [column [E1 E2]].
  rewrite Hcol in E1. injection E1 as <-. rewrite E2.
  apply fit_transform_matches_vocabulary. exact Hcls.
Qed.

(** ** Classes in ascending order *)

Lemma string_lt_trans (a b c : string) :
  String.compare a b = Lt -> String.compare b c = Lt ->
  String.compare a c = Lt.
Proof.
  intros H1 H2.
  apply OrderedTypeEx.String_as_OT.cmp_lt.
  apply OrderedTypeEx.String_as_OT.cmp_lt in H1, H2.
  exact (OrderedTypeEx.String_as_OT.lt_trans _ _ _ H1 H2).
Qed.

Lemma string_gt_lt (a b : string) :
  String.compare a b = Gt -> String.compare b a = Lt.
Proof.
  intros H. rewrite String.compare_antisym, H. reflexivity.
Qed.

Lemma insert_unique_In (x y : string) (l : list string) :
  In y (insert_unique String.compare x l) <-> y = x \/ In y l.
Proof.
  induction l as [| h t IH]; simpl.
  - intuition congruence.
  - destruct (String.compare x h) eqn:E; simpl.
    + apply String.compare_eq_iff in E. subst h. intuition congruence.
    + intuition congruence.
    + rewrite IH. intuition congruence.
Qed.

Lemma insert_unique_ascending (x : string) (l : list string) :
  ascending l -> ascending (insert_unique String.compare x l).
Proof.
  unfold ascending.
  induction 1 as [| h t Ht IH Hh]; simpl.
  - constructor; constructor.
  - destruct (String.compare x h) eqn:E.
    + constructor; assumption.
    + constructor; [constructor; assumption |].
      constructor; [exact E |].
      eapply List.Forall_impl; [| exact Hh].
      intros y Hy. exact (string_lt_trans _ _ _ E Hy).
    + constructor; [exact IH |].
      apply Forall_forall. intros y Hy. apply list_elem_of_In in Hy.
      apply insert_unique_In in Hy. destruct Hy as [-> | Hy].
      * apply string_gt_lt. exact E.
      * rewrite Forall_forall in Hh. apply Hh. apply list_elem_of_In. exact Hy.
Qed.

Lemma np_unique_ascending (l : list string) :
  ascending (np_unique String.compare l).
Proof.
  induction l as [| x l IH]; simpl.
  - constructor.
  - apply insert_unique_ascending. exact IH.
Qed.

Lemma np_unique_In (l : list string) (s : string) :
  In s (np_unique String.compare l) <-> In s l.
Proof.
  induction l as [| x l IH]; simpl; [tauto |].
  rewrite insert_unique_In, IH. intuition congruence.
Qed.

Lemma fit_transform_fitted {A} (f : A -> string) (l : list A) (codes : list Z) :
  fit_transform (map (fun a => CStr (f a)) l) = inr (map CInt codes) ->
  fitted_codes (map f l) codes.
Proof.
  intros H.
  assert (H' : fit_transform (map CStr (map f l)) = inr (map CInt codes))
    by (rewrite map_map; exact H).
  apply fit_transform_codes in H'.
  exists (np_unique String.compare (map f l)).
  split; [apply np_unique_ascending |].
  split; [apply np_unique_In |].
  apply Forall2_fmap_r in H'.
  eapply Forall2_impl; [exact H' |].
  intros s c [k [Ek Ec]]. injection Ec as ->.
  split; [lia |]. rewrite Nat2Z.id. apply index_of_sound. exact Ek.
Qed.

(** ** The feature vector of a valid record *)

Lemma valid_numbers_tenure (r : customer_row) :
  valid_numbers r = true -> 0 <= row_tenure r.
Proof.
  unfold valid_numbers. rewrite !andb_true_iff.
  intros [[[[[H _] _] _] _] _]. apply Z.leb_le. exact H.
Qed.

Lemma valid_rows_tenure (rows : list customer_row) :
  Forall (fun r => valid_numbers r = true) rows ->
  Forall (fun r => 0 <= row_tenure r) rows.
Proof.
  intros H. eapply List.Forall_impl; [| exact H].
  exact valid_numbers_tenure.
Qed.

Lemma batch_features_of_rows (rows : list customer_row) :
  Forall (fun r => valid_numbers r = true) rows ->
  exists df ce pe ie avg,
    batch_features (customers_frame rows)
    = inr (df, spec_feature_vector CInt rows ce pe ie avg)
    /\ fitted_codes (map row_contract_type rows) ce
    /\ fitted_codes (map row_payment_method rows) pe
    /\ fitted_codes (map row_internet_service rows) ie
    /\ spec_avg_monthly_charge rows avg.
Proof.
  intros Hvalid. pose proof (valid_rows_tenure rows Hvalid) as Hrows.
  destruct (fit_transform_text row_contract_type rows) as [ce [Ece Lce]].
  destruct (fit_transform_text row_payment_method rows) as [pe [Epe Lpe]].
  destruct (fit_transform_text row_internet_service rows) as [ie [Eie Lie]].
  eexists. exists ce, pe, ie.
  exists (map (fun r => row_total_charges r / inject_Z (row_tenure r + 1))%Q
            rows).
  split;
    [| split; [exact (fit_transform_fitted _ _ _ Ece) |
       split; [exact (fit_transform_fitted _ _ _ Epe) |
       split; [exact (fit_transform_fitted _ _ _ Eie) |
               apply batch_average_spec]]]].
  unfold batch_features, customers_frame.
  frame_step. rewrite tenure_plus_one.
  frame_step. rewrite (average_column rows Hrows).
  frame_step. rewrite value_column.
  frame_step. unfold flag at 1.
  rewrite (count_column (fun r => Z.b2z (row_streaming_tv r))
             row_streaming_movies).
  frame_step. rewrite (count_column _ row_tech_support).
  frame_step. rewrite (count_column _ row_online_security).
  frame_step. rewrite Ece.
  frame_step. rewrite Epe.
  frame_step. rewrite Eie.
  frame_step.
  unfold df_select, feature_cols, spec_feature_vector, spec_services_count.
  cbn [traverse df_get String.eqb Ascii.eqb Bool.eqb bind ret].
  rewrite map_map. reflexivity.
Qed.










(** ** The division guard on both paths *)

Lemma guarded_cell (charges ten ten1 avg : cell) :
  finite_number charges = true ->
  nonnegative_tenure ten = true ->
  cell_add ten (CInt 1) = inr ten1 ->
  cell_div charges ten1 = inr avg ->
  guarded_average charges ten avg.
Proof.
  unfold finite_number, guarded_average, cell_value, cell_div.
  intros Hc Ht Hadd Hdiv.
  destruct (as_float charges) as [[total |] |] eqn:Ec; try discriminate Hc.
  destruct ten as [z | [t |] | s]; simpl in Ht; try discriminate Ht.
  - (* an integer column *)
    apply andb_true_iff in Ht. destruct Ht as [Hz _]. apply Z.leb_le in Hz.
    simpl in Hadd. injection Hadd as <-. simpl in Hdiv.
    assert (E : Qeq_bool (inject_Z (z + 1)) 0 = false).
    { apply not_true_iff_false. intros E. apply Qeq_bool_eq in E.
      change 0%Q with (inject_Z 0) in E.
      apply (proj1 (inject_Z_injective _ _)) in E. lia. }
    rewrite E in Hdiv. injection Hdiv as <-.
    eexists. split; [reflexivity |]. simpl.
    rewrite inject_Z_plus. reflexivity.
  - (* a float column *)
    apply Qle_bool_iff in Ht.
    simpl in Hadd. injection Hadd as <-. simpl in Hdiv.
    change (inject_Z 1) with 1%Q in Hdiv.
    rewrite (guarded_divisor_nonzero t Ht) in Hdiv. injection Hdiv as <-.
    eexists. split; reflexivity.
Qed.

Lemma guarded_column (charges : Series) :
  forall ten ten1 avg,
    forallb finite_number charges = true ->
    forallb nonnegative_tenure ten = true ->
    series_scalar cell_add ten (CInt 1) = inr ten1 ->
    series_op cell_div charges ten1 = inr avg ->
    Forall2 (fun row a => guarded_average (fst row) (snd row) a)
      (combine charges ten) avg.
Proof.
  unfold series_scalar.
  induction charges as [| c charges IH]; intros ten ten1 avg Hc Ht Hadd Hdiv.
  - simpl in Hdiv. injection Hdiv as <-. constructor.
  - destruct ten as [| t ten].
    + simpl in Hadd. injection Hadd as <-. simpl in Hdiv.
      injection Hdiv as <-. constructor.
    + cbn [traverse] in Hadd.
      destruct (cell_add t (CInt 1)) as [| t1] eqn:Et; [discriminate |].
      cbn [bind] in Hadd.
      destruct (traverse (fun x => cell_add x (CInt 1)) ten) as [| ten1']
        eqn:Eten; [discriminate |].
      cbn [bind ret] in Hadd. injection Hadd as <-.
      cbn [series_op] in Hdiv.
      destruct (cell_div c t1) as [| a] eqn:Ea; [discriminate |].
      cbn [bind] in Hdiv.
      destruct (series_op cell_div charges ten1') as [| avg'] eqn:Eavg;
        [discriminate |].
      cbn [bind ret] in Hdiv. injection Hdiv as <-.
      cbn [forallb] in Hc, Ht.
      apply andb_true_iff in Hc, Ht. destruct Hc as [Hc Hcs], Ht as [Ht Hts].
      cbn [combine]. constructor.
      * exact (guarded_cell c t t1 a Hc Ht Et Ea).
      * exact (IH ten ten1' avg' Hcs Hts Eten Eavg).
Qed.

(** The average column of the feature frame is the quotient of the
    columns total_charges and tenure + 1 of the table. *)
Lemma batch_average_inv (df df' X : DataFrame) :
  batch_features df = inr (df', X) ->
  exists charges ten ten1 avg,
    df_get df "total_charges" = inr charges /\
    df_get df "tenure" = inr ten /\
    series_scalar cell_add ten (CInt 1) = inr ten1 /\
    series_op cell_div charges ten1 = inr avg /\
    df_get X "avg_monthly_charge" = inr avg.
Proof.
  intros H. unfold batch_features in H.
  destruct (df_get df "total_charges") as [| charges] eqn:Ec;
    [discriminate H |]. cbn [bind] in H.
  destruct (df_get df "tenure") as [| ten] eqn:Et;
    [discriminate H |]. cbn [bind] in H.
  destruct (series_scalar cell_add ten (CInt 1)) as [| ten1] eqn:E1;
    [discriminate H |]. cbn [bind] in H.
  destruct (series_op cell_div charges ten1) as [| avg] eqn:Ea;
    [discriminate H |]. cbn [bind] in H.
  exists charges, ten, ten1, avg.
  repeat (split; [first [reflexivity | assumption] |]).
  repeat (lookup_frames_in H;
          match type of H with
          | context [bind ?m _] =>
              lazymatch m with
              | df_select _ _ => fail
              | _ => let E := fresh "E" in
                     destruct m eqn:E; [discriminate H |]; cbn [bind] in H
              end
          end).
  unfold df_select, feature_cols in H. cbn [traverse] in H.
  lookup_frames_in H.
  repeat match goal with
         | E : df_get df ?c = inr _ |- _ => rewrite E in H
         end.
  cbn [bind ret] in H. injection H as <- <-.
  reflexivity.
Qed.

(** C8: a tenure of at least 0 never makes the feature derivation divide
    by zero.  On the single-record path the derivation of a customer with
    tenure >= 0 does not raise and its avg_monthly_charge is
    total_charges/(tenure+1).  On the batch path, whenever the derivation
    goes through on a table whose total_charges are finite numbers and
    whose tenures are at least 0, every cell of avg_monthly_charge is the
    finite quotient total_charges/(tenure+1) of its row (no inf, no nan);
    on a table of valid records it does go through.  A tenure of 0 with
    total charges of 100 gives exactly 100 on both paths (the first row of
    the sample table has these values).  The guard is the
    +1 alone: at a tenure of -1 the single-record derivation raises
    ZeroDivisionError. *)
Theorem C8_division_guard :
  (forall c : customer,
      (0 <= tenure c)%Q ->
      avg_monthly_charge_column (single_features c)
      = inr [CFloat (Fin (total_charges c / (tenure c + 1)))]) /\
  (forall (df df' X : DataFrame) (charges ten : Series),
      batch_features df = inr (df', X) ->
      df_get df "total_charges" = inr charges ->
      df_get df "tenure" = inr ten ->
      forallb finite_number charges = true ->
      forallb nonnegative_tenure ten = true ->
      exists avg,
        df_get X "avg_monthly_charge" = inr avg /\
        Forall2 (fun row a => guarded_average (fst row) (snd row) a)
          (combine charges ten) avg) /\
  (forall rows : list customer_row,
      Forall (fun r => valid_numbers r = true) rows ->
      exists avg,
        avg_monthly_charge_column (batch_X (customers_frame rows))
        = inr (map (fun q => CFloat (Fin q)) avg) /\
        spec_avg_monthly_charge rows avg) /\
  (forall c : customer,
      tenure c = 0%Q -> total_charges c = 100%Q ->
      avg_monthly_charge_column (single_features c)
      = inr [CFloat (Fin 100)]) /\
  avg_monthly_charge_column (batch_X three_customers)
  = inr [CFloat (Fin 100); CFloat (Fin (150 # 6)); CFloat (Fin (120 # 13))] /\
  (forall c : customer,
      (tenure c == -1)%Q ->
      single_features c
      = inl (ZeroDivisionError "float division by zero")).
Proof.
  assert (Single : forall c : customer,
             (0 <= tenure c)%Q ->
             avg_monthly_charge_column (single_features c)
             = inr [CFloat (Fin (total_charges c / (tenure c + 1)))]).
  { intros c Ht.
    destruct (single_features_of_customer c Ht) as [ce [pe [ie E]]].
    rewrite E. reflexivity. }
  split; [exact Single |].
  split; [| split; [| split; [| split]]].
  - intros df df' X charges ten H Hc Ht Hfin Hten.
    destruct (batch_average_inv df df' X H)
      as (charges' & ten' & ten1 & avg & Ec & Et & E1 & Ea & EX).
    rewrite Hc in Ec. injection Ec as <-.
    rewrite Ht in Et. injection Et as <-.
    exists avg. split; [exact EX |].
    exact (guarded_column charges ten ten1 avg Hfin Hten E1 Ea).
  - intros rows Hrows.
    destruct (batch_features_of_rows rows Hrows)
      as (df & ce & pe & ie & avg & E & _ & _ & _ & Havg).
    exists avg. unfold batch_X. rewrite E. split; [reflexivity | exact Havg].
  - intros c Ht Htotal.
    rewrite Single by (rewrite Ht; discriminate).
    rewrite Ht, Htotal. reflexivity.
  - vm_compute. reflexivity.
  - intros c Ht. unfold single_features, py_div.
    assert (E : Qeq_bool (tenure c + 1) 0 = true).
    { apply Qeq_bool_iff. rewrite Ht. reflexivity. }
    rewrite E. reflexivity.
Qed.

Lemma C8_division_guard_witness :
  avg_monthly_charge_column (single_features first_month_customer)
  = inr [CFloat (Fin 100)] /\
  exists avg,
    df_get (snd (frames_of three_customers)) "avg_monthly_charge" = inr avg /\
    Forall2 (fun row a => guarded_average (fst row) (snd row) a)
      (combine [CFloat (Fin 100); CFloat (Fin 150); CFloat (Fin 120)]
               [CInt 0; CInt 5; CInt 12]) avg.
Proof.
  split.
  - refine (proj1 (proj2 (proj2 (proj2 C8_division_guard)))
              first_month_customer _ _); reflexivity.
  - refine (proj1 (proj2 C8_division_guard) three_customers
              (fst (frames_of three_customers))
              (snd (frames_of three_customers))
              [CFloat (Fin 100); CFloat (Fin 150); CFloat (Fin 120)]
              [CInt 0; CInt 5; CInt 12] _ _ _ _ _).
    + vm_compute. reflexivity.
    + reflexivity.
    + reflexivity.
    + reflexivity.
    + reflexivity.
Defined.

(** ** Accounts *)

Lemma optional_error_nil (c : bool) (e : string) :
  (if c then [e] else []) = [] <-> c = false.
Proof. destruct c; split; intros; try discriminate; reflexivity. Qed.

Lemma required_error_nil (c : bool) (e : string) :
  (if c then [] else [e]) = [] <-> c = true.
Proof. destruct c; split; intros; try discriminate; reflexivity. Qed.

Lemma registration_valid_iff
  (t : users_table) (username password email : text) :
  registration_errors t username password email = [] <->
  (3 <= length username <= 50)%nat /\
  (8 <= length password)%nat /\
  64%N ∈ email /\
  get_user_by_username t username = None /\
  select_by_email t email = None.
Proof.
  unfold registration_errors. cbv beta zeta.
  rewrite !app_nil. split.
  - intros (H1 & H2 & H3 & H4 & H5 & H6 & H7 & H8).
    apply required_error_nil in H1, H2, H3.
    apply optional_error_nil in H4, H5, H6, H7, H8.
    rewrite H1 in H4, H7. rewrite H2 in H5. rewrite H3 in H6, H8.
    cbn [andb] in *.
    apply orb_false_iff in H4 as [H4 H4'].
    apply Nat.ltb_ge in H4, H4', H5.
    apply negb_false_iff, bool_decide_eq_true in H6.
    repeat split; try assumption.
    + destruct (get_user_by_username t username); [discriminate | reflexivity].
    + destruct (select_by_email t email); [discriminate | reflexivity].
  - intros ([Hu Hu'] & Hp & He & Hgu & Hse).
    rewrite Hgu, Hse.
    assert (E1 : Nat.eqb (length username) 0 = false)
      by (apply Nat.eqb_neq; lia).
    assert (E2 : Nat.eqb (length password) 0 = false)
      by (apply Nat.eqb_neq; lia).
    assert (E3 : Nat.eqb (length email) 0 = false).
    { apply Nat.eqb_neq. destruct email; [| simpl; lia].
      exfalso. eapply not_elem_of_nil. exact He. }
    assert (E4 : Nat.ltb (length username) 3 = false)
      by (apply Nat.ltb_ge; lia).
    assert (E5 : Nat.ltb 50 (length username) = false)
      by (apply Nat.ltb_ge; lia).
    assert (E6 : Nat.ltb (length password) 8 = false)
      by (apply Nat.ltb_ge; lia).
    assert (E7 : bool_decide (64%N ∈ email) = true)
      by (apply bool_decide_eq_true; exact He).
    rewrite E1, E2, E3, E4, E5, E6, E7. repeat split.
Qed.

Lemma find_app_none {A} (f : A -> bool) l x :
  List.find f l = None ->
  List.find f (l ++ [x]) = if f x then Some x else None.
Proof.
  induction l as [| a l IH]; simpl; [reflexivity |].
  destruct (f a); [discriminate | exact IH].
Qed.

Lemma find_app_some {A} (f : A -> bool) l l' y :
  List.find f l = Some y -> List.find f (l ++ l') = Some y.
Proof.
  induction l as [| a l IH]; simpl; [discriminate |].
  destruct (f a); [tauto | exact IH].
Qed.

Lemma insert_user_inv t username email pwhash is_admin now t' id :
  insert_user t username email pwhash is_admin now = Some (t', id) ->
  select_by_username t username = None /\
  select_by_email t email = None /\
  id = users_seq t + 1 /\
  t' = {| users_rows :=
            users_rows t ++
            [{| users_id := id; users_username := username;
                users_email := email; users_password_hash := pwhash;
                users_is_admin := is_admin; users_created_at := now |}];
          users_seq := id |}.
Proof.
  unfold insert_user.
  destruct (select_by_username t username); [discriminate |].
  destruct (select_by_email t email); [discriminate |].
  intros H. injection H as <- <-. auto.
Qed.

Lemma find_none_not_in {A B} (f : A -> B) `{EqDecision B} (l : list A) (b : B) :
  List.find (fun r => bool_decide (f r = b)) l = None -> ~ In b (map f l).
Proof.
  intros H Hin. apply in_map_iff in Hin as [r [Hr Hin]].
  pose proof (find_none _ _ H r Hin) as Hf. simpl in Hf.
  apply bool_decide_eq_false in Hf. contradiction.
Qed.

Lemma NoDup_snoc {A} (l : list A) (x : A) :
  List.NoDup l -> ~ In x l -> List.NoDup (l ++ [x]).
Proof.
  induction 1 as [| a l Ha Hl IH]; simpl; intros Hx.
  - repeat constructor. simpl. tauto.
  - constructor.
    + rewrite in_app_iff. simpl. intros [H | [H | []]]; [tauto |].
      apply Hx. left. symmetry. exact H.
    + apply IH. tauto.
Qed.

Section AccountFacts.
Variable salt : Type.
Variable generate_password_hash : salt -> text -> text.
Variable check_password_hash : text -> text -> bool.
Hypothesis check_generated :
  forall s password,
    check_password_hash (generate_password_hash s password) password = true.

Abbreviation create := (create_user salt generate_password_hash).

Lemma create_user_inv t s now username password email is_admin t' user :
  create t s now username password email is_admin = (t', Some user) ->
  insert_user t username email (generate_password_hash s password)
    (Z.b2z is_admin) now = Some (t', User_id user) /\
  user = {| User_id := users_seq t + 1; User_username := username;
            User_email := email;
            User_password_hash := generate_password_hash s password;
            User_is_admin := is_admin |}.
Proof.
  unfold create_user.
  destruct (insert_user t username email _ _ now) as [[t1 id] |] eqn:E;
    [| discriminate].
  intros H. injection H as <- <-.
  destruct (insert_user_inv _ _ _ _ _ _ _ _ E) as (_ & _ & -> & _).
  split; reflexivity.
Qed.

(** X14: On a consistent users table, a user that create_user answers can be
    fetched back unchanged by get_user_by_username and by User.get with the
    returned id, and logs in with the password given (assuming
    check_password_hash accepts what generate_password_hash produced). *)
Theorem create_user_round_trip
  t s now username password email is_admin t' user :
  users_consistent t ->
  create t s now username password email is_admin = (t', Some user) ->
  get_user_by_username t' username = Some user /\
  User_get t' (User_id user) = Some user /\
  login check_password_hash t' username password
    = (Redirect "dashboard" [("Login successful!", "success")], Some user).
Proof.
  intros (_ & _ & _ & Hids) H.
  destruct (create_user_inv _ _ _ _ _ _ _ _ _ H) as [Hins ->].
  destruct (insert_user_inv _ _ _ _ _ _ _ _ Hins) as (Hu & _ & _ & ->).
  cbn [User_id] in *.
  match goal with
  | |- get_user_by_username ?t1 _ = Some ?u /\ _ =>
      assert (Hget : get_user_by_username t1 username = Some u)
  end.
  { unfold get_user_by_username, select_by_username. cbn [users_rows].
    rewrite (find_app_none _ _ _ Hu). cbn [users_username].
    rewrite bool_decide_eq_true_2 by reflexivity.
    unfold User_of_row. cbn. destruct is_admin; reflexivity. }
  split; [exact Hget |]. split.
  - unfold User_get, select_by_id. cbn [users_rows].
    rewrite find_app_none.
    + cbn [users_id]. rewrite Z.eqb_refl.
      unfold User_of_row. cbn. destruct is_admin; reflexivity.
    + destruct (List.find _ (users_rows t)) as [r |] eqn:E; [| reflexivity].
      apply find_some in E as [Hin Hr]. apply Z.eqb_eq in Hr.
      rewrite Forall_forall in Hids.
      apply list_elem_of_In in Hin. specialize (Hids r Hin). lia.
  - unfold login. rewrite Hget. unfold check_password. cbn [User_password_hash].
    rewrite check_generated. reflexivity.
Qed.

Lemma create_user_none_iff
  t s now username password email is_admin :
  snd (create t s now username password email is_admin) = None <->
  get_user_by_username t username <> None \/ select_by_email t email <> None.
Proof.
  unfold create_user, insert_user, get_user_by_username.
  destruct (select_by_username t username);
    destruct (select_by_email t email); simpl;
    split; intros H; try reflexivity; try discriminate;
    try (left; discriminate); try (right; discriminate).
  destruct H as [H | H]; contradiction.
Qed.

Lemma failed_create_user_changes_nothing
  t s now username password email is_admin :
  snd (create t s now username password email is_admin) = None ->
  fst (create t s now username password email is_admin) = t.
Proof.
  unfold create_user.
  destruct (insert_user t username email _ _ now) as [[t1 id] |];
    [discriminate | reflexivity].
Qed.

(** X16: create_user keeps the users table consistent: usernames, emails and
    ids stay unique and no id exceeds the autoincrement sequence, whether
    the insert succeeds or not. *)
Theorem create_user_keeps_consistency
  t s now username password email is_admin :
  users_consistent t ->
  users_consistent (fst (create t s now username password email is_admin)).
Proof.
  intros Hok. unfold create_user.
  destruct (insert_user t username email _ _ now) as [[t1 id] |] eqn:E;
    [| exact Hok].
  destruct (insert_user_inv _ _ _ _ _ _ _ _ E) as (Hu & He & -> & ->).
  destruct Hok as (Nu & Ne & Ni & Hids).
  unfold users_consistent. cbn [fst users_rows users_seq].
  rewrite !map_app. cbn [map users_username users_email users_id].
  repeat split.
  - apply NoDup_snoc; [exact Nu |].
    exact (find_none_not_in users_username _ _ Hu).
  - apply NoDup_snoc; [exact Ne |].
    exact (find_none_not_in users_email _ _ He).
  - apply NoDup_snoc; [exact Ni |].
    intros Hx. apply in_map_iff in Hx as [r [Hr Hin]].
    rewrite Forall_forall in Hids. apply list_elem_of_In in Hin.
    specialize (Hids r Hin). lia.
  - apply Forall_app. split.
    + eapply Forall_impl; [exact Hids |]. intros r Hr. simpl in *. lia.
    + repeat constructor. simpl. lia.
Qed.
Lemma create_user_keeps_accounts
  t s now username password email is_admin (known : text) (user : User) :
  get_user_by_username t known = Some user ->
  get_user_by_username
    (fst (create t s now username password email is_admin)) known
  = Some user.
Proof.
  intros H. unfold create_user.
  destruct (insert_user t username email _ _ now) as [[t1 id] |] eqn:E;
    [| exact H].
  destruct (insert_user_inv _ _ _ _ _ _ _ _ E) as (_ & _ & _ & ->).
  unfold get_user_by_username, select_by_username in *. cbn [fst users_rows].
  destruct (List.find _ (users_rows t)) as [r |] eqn:F; [| discriminate].
  rewrite (find_app_some _ _ _ _ F). exact H.
Qed.

Abbreviation signup := (register salt generate_password_hash).

Lemma register_cases t s now form_username form_password form_email :
  let errors :=
    registration_errors t (strip form_username) (strip form_password)
      (strip form_email) in
  (errors <> [] /\
   signup t s now form_username form_password form_email
   = (t, Render "register.html" (map (fun e => (e, "error")) errors))) \/
  (errors = [] /\
   exists t' user,
     create t s now (strip form_username) (strip form_password)
       (strip form_email) false = (t', Some user) /\
     length (users_rows t') = S (length (users_rows t)) /\
     signup t s now form_username form_password form_email
     = (t', Redirect "login"
              [("Registration successful! Please login.", "success")])).
Proof.
  intros errors. unfold register. fold errors.
  destruct errors as [| e errors'] eqn:E.
  - right. split; [reflexivity |].
    apply registration_valid_iff in E as (_ & _ & _ & Hu & He).
    unfold create_user, insert_user.
    unfold get_user_by_username in Hu.
    destruct (select_by_username t (strip form_username)); [discriminate |].
    rewrite He. eexists. eexists. split; [reflexivity |].
    split; [| reflexivity].
    cbn [users_rows]. rewrite length_app. simpl. lia.
  - left. split; [discriminate | reflexivity].
Qed.

Lemma registered_user_logs_in
  t s now form_username form_password form_email t' endpoint flashes :
  signup t s now form_username form_password form_email
  = (t', Redirect endpoint flashes) ->
  exists user,
    login check_password_hash t' (strip form_username) (strip form_password)
    = (Redirect "dashboard" [("Login successful!", "success")], Some user) /\
    User_username user = strip form_username /\
    User_email user = strip form_email /\
    User_is_admin user = false.
Proof.
  intros H.
  destruct (register_cases t s now form_username form_password form_email)
    as [[_ E] | [_ (t1 & user & Hc & _ & E)]];
    rewrite E in H; [discriminate |].
  injection H as <- _ _.
  destruct (create_user_inv _ _ _ _ _ _ _ _ _ Hc) as [Hins ->].
  destruct (insert_user_inv _ _ _ _ _ _ _ _ Hins) as (Hu & _ & _ & ->).
  eexists. split.
  { unfold login, get_user_by_username, select_by_username. cbn [users_rows].
    rewrite (find_app_none _ _ _ Hu). cbn [users_username].
    rewrite bool_decide_eq_true_2 by reflexivity.
    cbn [option_map]. unfold check_password, User_of_row.
    cbn [User_password_hash users_password_hash].
    rewrite check_generated. reflexivity. }
  repeat split; reflexivity.
Qed.

(** X18: After a successful registration, login succeeds with the stripped
    username and the stripped password (register strips its fields, login
    does not), and the account is not an admin (assuming check_password_hash
    accepts what generate_password_hash produced). *)
Theorem register_then_login
  t s now form_username form_password form_email t' endpoint flashes :
  signup t s now form_username form_password form_email
  = (t', Redirect endpoint flashes) ->
  exists user,
    login check_password_hash t' (strip form_username) (strip form_password)
    = (Redirect "dashboard" [("Login successful!", "success")], Some user) /\
    User_username user = strip form_username /\
    User_email user = strip form_email /\
    User_is_admin user = false.
Proof. apply registered_user_logs_in. Qed.

(** X24: An account created through register is never an admin: once the
    registration has succeeded, the user who logs in with the registered
    credentials is sent away from the admin page with 'Access denied - Admin
    only', whatever the tables hold. *)
Theorem registered_user_is_denied_admin
  t s now form_username form_password form_email t' endpoint flashes
  (sql_avg : list Q -> Q) (users : users_table) (db : predictions_table) :
  signup t s now form_username form_password form_email
  = (t', Redirect endpoint flashes) ->
  exists user,
    snd (login check_password_hash t' (strip form_username)
           (strip form_password)) = Some user /\
    admin sql_avg user users db
    = inl (Redirect "dashboard" [("Access denied - Admin only", "error")]).
Proof.
  intros H.
  destruct (registered_user_logs_in _ _ _ _ _ _ _ _ _ H)
    as (user & Hlogin & _ & _ & Hadmin).
  exists user. rewrite Hlogin. split; [reflexivity |].
  unfold admin. rewrite Hadmin. reflexivity.
Qed.

(** X19: register never changes an existing account: a user that
    get_user_by_username found before the call is found unchanged after it,
    whatever was submitted. *)
Theorem register_keeps_accounts
  t s now form_username form_password form_email (known : text) (user : User) :
  get_user_by_username t known = Some user ->
  get_user_by_username
    (fst (signup t s now form_username form_password form_email)) known
  = Some user.
Proof.
  intros H.
  destruct (register_cases t s now form_username form_password form_email)
    as [[_ E] | [_ (t1 & u & Hc & _ & E)]]; rewrite E; cbn [fst];
    [exact H |].
  pose proof (create_user_keeps_accounts t s now (strip form_username)
                (strip form_password) (strip form_email) false known user H)
    as K.
  rewrite Hc in K. exact K.
Qed.

End AccountFacts.

(** X13: The validation of register reports no error exactly when the
    stripped username has 3 to 50 characters, the stripped password at least
    8, the stripped email contains '@', and neither the username nor the
    email is already in the users table. *)
Theorem registration_errors_empty_iff
  (t : users_table) (username password email : text) :
  registration_errors t username password email = [] <->
  (3 <= length username <= 50)%nat /\
  (8 <= length password)%nat /\
  64%N ∈ email /\
  get_user_by_username t username = None /\
  select_by_email t email = None.
Proof. apply registration_valid_iff. Qed.

(** X15: create_user returns None exactly when the username or the email is
    already in the table, and then the table is left as it was. *)
Theorem create_user_refuses_duplicates
  (salt : Type) (generate_password_hash : salt -> text -> text)
  (t : users_table) (s : salt) (now : Z)
  (username password email : text) (is_admin : bool) :
  let answer :=
    create_user salt generate_password_hash t s now username password email
      is_admin in
  (snd answer = None <->
   get_user_by_username t username <> None
   \/ select_by_email t email <> None) /\
  (snd answer = None -> fst answer = t).
Proof.
  intros answer. split.
  - apply create_user_none_iff.
  - apply failed_create_user_changes_nothing.
Qed.

(** X17: register has two outcomes only: validation errors, flashed in order
    with the table unchanged and the form rendered again, or one new non-
    admin row and a redirect to login; the 'Registration failed' answer
    cannot occur after a validation without errors. *)
Theorem register_outcome
  (salt : Type) (generate_password_hash : salt -> text -> text)
  (t : users_table) (s : salt) (now : Z)
  (form_username form_password form_email : text) :
  let errors :=
    registration_errors t (strip form_username) (strip form_password)
      (strip form_email) in
  (errors <> [] /\
   register salt generate_password_hash t s now
     form_username form_password form_email
   = (t, Render "register.html" (map (fun e => (e, "error")) errors))) \/
  (errors = [] /\
   exists t' user,
     create_user salt generate_password_hash t s now (strip form_username)
       (strip form_password) (strip form_email) false = (t', Some user) /\
     length (users_rows t') = S (length (users_rows t)) /\
     register salt generate_password_hash t s now
       form_username form_password form_email
     = (t', Redirect "login"
              [("Registration successful! Please login.", "success")])).
Proof. apply register_cases. Qed.

(** ** Stored predictions and generated customers *)

Lemma segment_size_counts (sql_avg : list Q -> Q)
  (db : predictions_table) (name : string) :
  In name ["High Risk"; "Low Risk"; "Medium Risk"] ->
  segment_size (api_segments sql_avg db) name
  = length (List.filter (in_segment name) (map row_probability db)).
Proof.
  intros Hname. unfold api_segments, segment_group, segment_size.
  cbn [flat_map]. fold (in_segment "High Risk") (in_segment "Low Risk")
    (in_segment "Medium Risk").
  destruct (List.filter (in_segment "High Risk") _) as [| h hs] eqn:EH;
    destruct (List.filter (in_segment "Low Risk") _) as [| l ls] eqn:EL;
    destruct (List.filter (in_segment "Medium Risk") _) as [| m ms] eqn:EM;
    simpl in Hname; decompose [or] Hname; subst; try contradiction;
    rewrite ?EH, ?EL, ?EM; reflexivity.
Qed.

Lemma segment_cases (p : Q) :
  (segment p = "Low Risk" /\ (p < 3 # 10)%Q) \/
  (segment p = "Medium Risk" /\ (3 # 10 <= p < 7 # 10)%Q) \/
  (segment p = "High Risk" /\ (7 # 10 <= p)%Q).
Proof.
  unfold segment.
  destruct (Qltb p (3 # 10)) eqn:H3;
    [apply Qltb_lt in H3; auto | apply Qltb_ge in H3].
  destruct (Qltb p (7 # 10)) eqn:H7;
    [apply Qltb_lt in H7; auto | apply Qltb_ge in H7; auto].
Qed.

Lemma filter_segment_cons (name : string) (p : Q) (ps : list Q) :
  List.filter (in_segment name) (p :: ps)
  = if String.eqb (segment p) name
    then p :: List.filter (in_segment name) ps
    else List.filter (in_segment name) ps.
Proof. reflexivity. Qed.

Lemma segments_cover (ps : list Q) :
  (length (List.filter (in_segment "Low Risk") ps)
   + length (List.filter (in_segment "Medium Risk") ps)
   + length (List.filter (in_segment "High Risk") ps))%nat = length ps.
Proof.
  induction ps as [| p ps IH]; [reflexivity |].
  rewrite !filter_segment_cons.
  destruct (segment_cases p) as [[-> _] | [[-> _] | [-> _]]];
    cbn [String.eqb Ascii.eqb Bool.eqb length]; lia.
Qed.

(** X20: The counts that api_segments answers for Low Risk, Medium Risk and
    High Risk add up to the number of stored predictions, and every segment
    it answers has at least one prediction. *)
Theorem segments_partition_predictions (sql_avg : list Q -> Q)
  (db : predictions_table) :
  (segment_size (api_segments sql_avg db) "Low Risk"
   + segment_size (api_segments sql_avg db) "Medium Risk"
   + segment_size (api_segments sql_avg db) "High Risk")%nat = length db /\
  Forall (fun r => (0 < segment_count r)%nat) (api_segments sql_avg db).
Proof.
  split.
  - rewrite !segment_size_counts by (simpl; tauto).
    rewrite segments_cover. apply length_map.
  - assert (G : forall name,
               Forall (fun r => (0 < segment_count r)%nat)
                 (segment_group sql_avg db name)).
    { intros name. unfold segment_group.
      destruct (List.filter _ (map row_probability db));
        [constructor | constructor; [simpl; lia | constructor]]. }
    unfold api_segments. cbn [flat_map]. rewrite !Forall_app.
    repeat split; try apply G. constructor.
Qed.

(** X21: The dashboard's high_risk_customers (probability > 0.7) equals the
    High Risk count of api_segments (probability >= 0.7) minus the number of
    stored predictions whose probability is exactly 0.7. *)
Theorem dashboard_misses_boundary_of_high_segment (sql_avg : list Q -> Q)
  (users : users_table) (db : predictions_table) :
  segment_size (api_segments sql_avg db) "High Risk"
  = (high_risk_customers (dashboard users db)
     + count_if (fun p => Qeq_bool p (7 # 10)) (map row_probability db))%nat.
Proof.
  rewrite segment_size_counts by (simpl; tauto).
  unfold dashboard, count_if. cbn [high_risk_customers].
  induction (map row_probability db) as [| p ps IH]; [reflexivity |].
  rewrite filter_segment_cons. cbn [List.filter].
  destruct (segment_cases p) as [[E Hp] | [[E Hp] | [E Hp]]]; rewrite E;
    cbn [String.eqb Ascii.eqb Bool.eqb].
  - assert (A : Qltb (7 # 10) p = false) by (apply Qltb_ge; lra).
    assert (B : Qeq_bool p (7 # 10) = false).
    { apply not_true_iff_false. intros B. apply Qeq_bool_iff in B. lra. }
    rewrite A, B. exact IH.
  - assert (A : Qltb (7 # 10) p = false) by (apply Qltb_ge; lra).
    assert (B : Qeq_bool p (7 # 10) = false).
    { apply not_true_iff_false. intros B. apply Qeq_bool_iff in B. lra. }
    rewrite A, B. exact IH.
  - destruct (Qeq_bool p (7 # 10)) eqn:B.
    + apply Qeq_bool_iff in B.
      assert (A : Qltb (7 # 10) p = false) by (apply Qltb_ge; lra).
      rewrite A. cbn [length]. rewrite IH. lia.
    + assert (A : Qltb (7 # 10) p = true).
      { apply Qltb_lt. apply not_true_iff_false in B.
        destruct (Qlt_le_dec (7 # 10) p) as [C | C]; [exact C |].
        exfalso. apply B. apply Qeq_bool_iff. lra. }
      rewrite A. cbn [length]. rewrite IH. lia.
Qed.

Lemma segment_is_risk_level (p : Q) :
  segment p = fst (determine_risk_level p) ++ " Risk".
Proof.
  unfold segment, determine_risk_level.
  destruct (Qltb p (3 # 10)); [reflexivity |].
  destruct (Qltb p (7 # 10)); reflexivity.
Qed.

Lemma segment_name_known (p : Q) :
  In (segment p) ["High Risk"; "Low Risk"; "Medium Risk"].
Proof.
  destruct (segment_cases p) as [[-> _] | [[-> _] | [-> _]]]; simpl; tauto.
Qed.

(** X22: When api_predict answers a prediction and the insert succeeds,
    exactly one row is appended for the current user with the payload, the
    unrounded probability and the prediction of the response; api_segments
    then counts that row in the segment named after the risk level of the
    response, and the dashboard's total grows by one. *)
Theorem stored_prediction_counts_in_reported_segment
  (float_of_str : string -> option Q) (int_of_str : string -> option Z)
  (model : option (DataFrame -> result (list Q))) (current_user_id : Z)
  (sql_avg : list Q -> Q) (users : users_table) (db db' : predictions_table) (data : payload)
  (r : prediction) :
  api_predict float_of_str int_of_str model predictions_table
    insert_prediction current_user_id db data = (Predicted r, db') ->
  exists row,
    db' = (db ++ [row])%list /\
    user_id row = current_user_id /\ features row = data /\
    row_prediction row = churn_prediction r /\
    churn_probability r = py_round (row_probability row) 4 /\
    segment (row_probability row) = risk_level r ++ " Risk" /\
    segment_size (api_segments sql_avg db') (risk_level r ++ " Risk")
    = S (segment_size (api_segments sql_avg db) (risk_level r ++ " Risk")) /\
    total_predictions (dashboard users db')
    = S (total_predictions (dashboard users db)).
Proof.
  unfold api_predict.
  destruct model as [clf |]; [| discriminate].
  destruct (extract float_of_str int_of_str data) as [e | c];
    [destruct e; discriminate |].
  destruct (single_features c) as [e | X]; [discriminate |].
  destruct (predict_one clf X) as [e | p]; [discriminate |].
  unfold insert_prediction. cbn [ret]. intros H. injection H as <- <-.
  eexists. split; [reflexivity |].
  cbn [user_id features row_prediction row_probability].
  assert (Hseg : segment p
                 = risk_level (respond p (Z.b2z (Qltb (1 # 2) p)) data)
                   ++ " Risk").
  { rewrite segment_is_risk_level. unfold respond.
    destruct (determine_risk_level p). reflexivity. }
  repeat split.
  - unfold respond. destruct (determine_risk_level p). reflexivity.
  - unfold respond. destruct (determine_risk_level p). reflexivity.
  - exact Hseg.
  - rewrite <- Hseg.
    rewrite !segment_size_counts by apply segment_name_known.
    rewrite map_app, List.filter_app, length_app. cbn [map row_probability].
    rewrite filter_segment_cons, String.eqb_refl. simpl. lia.
  - unfold dashboard. cbn [total_predictions].
    rewrite length_app. simpl. lia.
Qed.

Lemma np_clip_bounds (x lo hi : Q) :
  (lo <= hi)%Q -> (lo <= np_clip x lo hi <= hi)%Q.
Proof.
  intros H. unfold np_clip.
  destruct (Qltb x lo) eqn:A; [apply Qltb_lt in A | apply Qltb_ge in A].
  - destruct (Qltb hi lo) eqn:B;
      [apply Qltb_lt in B | apply Qltb_ge in B]; lra.
  - destruct (Qltb hi x) eqn:B;
      [apply Qltb_lt in B | apply Qltb_ge in B]; lra.
Qed.

Lemma np_clip_monotone (x y lo hi : Q) :
  (lo <= hi)%Q -> (x <= y)%Q -> (np_clip x lo hi <= np_clip y lo hi)%Q.
Proof.
  intros H Hxy. unfold np_clip.
  destruct (Qltb x lo) eqn:A; [apply Qltb_lt in A | apply Qltb_ge in A];
    (destruct (Qltb y lo) eqn:B; [apply Qltb_lt in B | apply Qltb_ge in B]);
    repeat match goal with
      | |- context [Qltb ?a ?b] =>
          let C := fresh "C" in
          destruct (Qltb a b) eqn:C;
          [apply Qltb_lt in C | apply Qltb_ge in C]
      end; lra.
Qed.

(** X23: The churn probability that generate_customer_data assigns to a
    customer lies between 0.1 and 0.9, and subscribing more services never
    raises it when contract, tenure, monthly charges and payment method are
    the same. *)
Theorem generated_churn_prob_range_and_services (r r' : customer_row) :
  row_contract_type r' = row_contract_type r ->
  row_tenure r' = row_tenure r ->
  row_monthly_charges r' = row_monthly_charges r ->
  row_payment_method r' = row_payment_method r ->
  spec_services_count r <= spec_services_count r' ->
  (1 # 10 <= generated_churn_prob r <= 9 # 10)%Q /\
  (generated_churn_prob r' <= generated_churn_prob r)%Q.
Proof.
  intros Hc Ht Hm Hp Hs. split.
  - apply np_clip_bounds. lra.
  - unfold generated_churn_prob. rewrite Hc, Ht, Hm, Hp.
    apply np_clip_monotone; [lra |].
    fold (spec_services_count r) (spec_services_count r').
    rewrite Zle_Qle in Hs.
    set (s := inject_Z (spec_services_count r)) in *.
    set (s' := inject_Z (spec_services_count r')) in *.
    repeat match goal with
      | |- context [if ?b then _ else _] => destruct b
      end; lra.
Qed.

(** ** Instances on the sample inputs *)

Lemma invalid_input_rejected_witness :
  api_predict no_float no_int (Some (constant_classifier [2 # 10]%Q))
    (list prediction_row) list_insert 1 [] null_tenure_payload
  = (Failure 400
       ("Invalid input data: "
        ++ str_exn (TypeError "float() argument must be a string or a real number, not 'NoneType'")),
     []).
Proof.
  apply (invalid_input_rejected no_float no_int (list prediction_row)
           list_insert 1 (constant_classifier [2 # 10]%Q) [] null_tenure_payload).
  reflexivity.
Defined.

Lemma prediction_agrees_with_tier_witness :
  (risk_level high_risk_answer = "Low" /\ color high_risk_answer = "green") \/
  (risk_level high_risk_answer = "Medium"
   /\ color high_risk_answer = "orange") \/
  (risk_level high_risk_answer = "High" /\ color high_risk_answer = "red").
Proof.
  refine (proj2 (proj2 (proj2 (proj2
            (prediction_agrees_with_tier no_float no_int
               (Some (constant_classifier [8 # 10]%Q)) (list prediction_row)
               list_insert 1 [] empty_payload high_risk_answer _))))).
  vm_compute. reflexivity.
Defined.

Lemma tenure_minus_one_rejected_witness :
  exists msg,
    api_predict no_float no_int (Some (constant_classifier [2 # 10]%Q))
      (list prediction_row) list_insert 1 [] negative_tenure_payload
    = (Failure 400 msg, []).
Proof.
  refine (tenure_minus_one_rejected no_float no_int (list prediction_row)
            list_insert 1 (constant_classifier [2 # 10]%Q) []
            negative_tenure_payload
            {| tenure := -1; monthly_charges := 0; total_charges := 0;
               contract_type := JStr "Month-to-Month";
               payment_method := JStr "Electronic check";
               internet_service := JStr "Fiber optic";
               streaming_tv := 0; streaming_movies := 0;
               tech_support := 0; online_security := 0 |} _ _).
  - reflexivity.
  - reflexivity.
Defined.

Lemma batch_summary_partitions_witness :
  (low_risk three_scored_summary + medium_risk three_scored_summary
   + high_risk three_scored_summary)%nat
  = total_customers three_scored_summary.
Proof.
  refine (batch_summary_partitions (constant_classifier three_scores)
            three_customers three_scored_summary three_scored_results _).
  vm_compute. reflexivity.
Defined.

Lemma batch_results_hide_encodings_witness :
  Forall (fun key => endswith key "_encoded" = false)
    (map fst (hd [] three_scored_results)).
Proof.
  refine (proj1 (batch_results_hide_encodings
                   (constant_classifier three_scores) three_customers
                   three_scored_summary three_scored_results
                   (hd [] three_scored_results) _ _)).
  - vm_compute. reflexivity.
  - vm_compute. left. reflexivity.
Defined.

Lemma batch_results_capped_witness :
  length three_scored_results = Nat.min 100 (df_len three_customers).
Proof.
  refine (proj2 (batch_results_capped (constant_classifier three_scores)
                   three_customers three_scored_summary three_scored_results
                   _ _)).
  - repeat constructor.
  - vm_compute. reflexivity.
Defined.

Lemma training_matches_batch_features_witness :
  preprocess_data (customers_frame [sample_row])
  = (try! y := df_get (customers_frame [sample_row]) "churn"
     in ret (snd (frames_of (customers_frame [sample_row])), y, feature_cols)).
Proof.
  refine (training_matches_batch_features (customers_frame [sample_row])
            (fst (frames_of (customers_frame [sample_row])))
            (snd (frames_of (customers_frame [sample_row]))) _).
  vm_compute. reflexivity.
Defined.

Lemma batch_codes_distinguish_categories_witness :
  CInt 1 = CInt 1 <-> "Two year" = "Two year".
Proof.
  refine (batch_codes_distinguish_categories three_customers
            (fst (frames_of three_customers))
            (snd (frames_of three_customers))
            "contract_type" "contract_encoded"
            ["Two year"; "Month-to-Month"; "Two year"]
            [CInt 1; CInt 0; CInt 1] 0 2 "Two year" "Two year"
            (CInt 1) (CInt 1) _ _ _ _ _ _ _ _).
  - vm_compute. reflexivity.
  - simpl. tauto.
  - reflexivity.
  - reflexivity.
  - reflexivity.
  - reflexivity.
  - reflexivity.
  - reflexivity.
Defined.

Lemma batch_single_category_encodes_zero_witness :
  df_get (snd (frames_of mailed_check_customers)) "payment_encoded"
  = inr [CInt 0; CInt 0; CInt 0].
Proof.
  refine (batch_single_category_encodes_zero mailed_check_customers
            (fst (frames_of mailed_check_customers))
            (snd (frames_of mailed_check_customers))
            "payment_method" "payment_encoded" "Mailed check"
            ["Mailed check"; "Mailed check"; "Mailed check"] _ _ _ _ _).
  - vm_compute. reflexivity.
  - simpl. tauto.
  - reflexivity.
  - discriminate.
  - repeat constructor.
Defined.

Lemma batch_codes_match_fitted_vocabulary_witness :
  exists codes,
    df_get (snd (frames_of all_contracts_customers)) "contract_encoded"
    = inr (map CInt codes) /\
    Forall2 (fun l c => transform_or contract_encoder (JStr l) 0 = inr c)
      ["Two year"; "Month-to-Month"; "One year"] codes.
Proof.
  refine (batch_codes_match_fitted_vocabulary all_contracts_customers
            (fst (frames_of all_contracts_customers))
            (snd (frames_of all_contracts_customers))
            "contract_type" "contract_encoded" contract_encoder
            ["Two year"; "Month-to-Month"; "One year"] 0 _ _ _ _).
  - vm_compute. reflexivity.
  - simpl. tauto.
  - reflexivity.
  - reflexivity.
Defined.

Lemma sample_hash_checks (s : unit) (password : text) :
  sample_check (sample_hash s password) password = true.
Proof. unfold sample_check, sample_hash. apply bool_decide_eq_true_2. reflexivity. Qed.

Lemma create_user_round_trip_witness :
  get_user_by_username
    (fst (create_user unit sample_hash no_users tt 0
            alice alice_password alice_email false)) alice
  = Some alice_user.
Proof.
  refine (proj1 (create_user_round_trip unit sample_hash sample_check
                   sample_hash_checks no_users tt 0
                   alice alice_password alice_email false _ alice_user _ _)).
  - repeat split; constructor.
  - vm_compute. reflexivity.
Defined.

Lemma create_user_keeps_consistency_witness :
  users_consistent
    (fst (create_user unit sample_hash no_users tt 0
            alice alice_password alice_email false)).
Proof.
  apply (create_user_keeps_consistency unit sample_hash no_users tt 0
           alice alice_password alice_email false).
  repeat split; constructor.
Defined.

Lemma register_then_login_witness :
  exists user,
    login sample_check alice_registered
      (strip (text_of "  alice ")) (strip (text_of "correct horse  "))
    = (Redirect "dashboard" [("Login successful!", "success")], Some user) /\
    User_username user = strip (text_of "  alice ") /\
    User_email user = strip alice_email /\
    User_is_admin user = false.
Proof.
  refine (register_then_login unit sample_hash sample_check
            sample_hash_checks no_users tt 0
            (text_of "  alice ") (text_of "correct horse  ") alice_email
            alice_registered "login"
            [("Registration successful! Please login.", "success")] _).
  vm_compute. reflexivity.
Defined.

Lemma register_keeps_accounts_witness :
  get_user_by_username
    (fst (register unit sample_hash alice_registered tt 1
            bob bob_password bob_email)) alice
  = Some alice_user.
Proof.
  apply (register_keeps_accounts unit sample_hash alice_registered tt 1
           bob bob_password bob_email alice alice_user).
  vm_compute. reflexivity.
Defined.

Lemma stored_prediction_counts_in_reported_segment_witness :
  exists row,
    [stored (8 # 10)] = ([] ++ [row])%list /\
    user_id row = 1 /\ features row = empty_payload /\
    row_prediction row = churn_prediction high_risk_answer /\
    churn_probability high_risk_answer = py_round (row_probability row) 4 /\
    segment (row_probability row) = risk_level high_risk_answer ++ " Risk" /\
    segment_size (api_segments sample_avg [stored (8 # 10)])
      (risk_level high_risk_answer ++ " Risk")
    = S (segment_size (api_segments sample_avg [])
           (risk_level high_risk_answer ++ " Risk")) /\
    total_predictions (dashboard no_users [stored (8 # 10)])
    = S (total_predictions (dashboard no_users [])).
Proof.
  refine (stored_prediction_counts_in_reported_segment no_float no_int
            (Some (constant_classifier [8 # 10]%Q)) 1 sample_avg no_users []
            [stored (8 # 10)] empty_payload high_risk_answer _).
  vm_compute. reflexivity.
Defined.

Lemma generated_churn_prob_range_and_services_witness :
  (generated_churn_prob sample_row_with_support
   <= generated_churn_prob sample_row)%Q.
Proof.
  refine (proj2 (generated_churn_prob_range_and_services sample_row
                   sample_row_with_support _ _ _ _ _));
    try reflexivity.
  vm_compute. discriminate.
Defined.

Lemma registered_user_is_denied_admin_witness :
  exists user,
    snd (login sample_check alice_registered
           (strip (text_of "  alice ")) (strip (text_of "correct horse  ")))
    = Some user /\
    admin sample_avg user alice_registered []
    = inl (Redirect "dashboard" [("Access denied - Admin only", "error")]).
Proof.
  refine (registered_user_is_denied_admin unit sample_hash sample_check
            sample_hash_checks no_users tt 0
            (text_of "  alice ") (text_of "correct horse  ") alice_email
            alice_registered "login"
            [("Registration successful! Please login.", "success")]
            sample_avg alice_registered [] _).
  vm_compute. reflexivity.
Defined.

